(** * MWAA logging configuration (images/airflow/2.9.1/python/mwaa/logging/config.py)

    A shallow embedding of the module that assembles [LOGGING_CONFIG] from
    Airflow's [DEFAULT_LOGGING_CONFIG] and the [MWAA__LOGGING__*] environment
    variables, together with the properties of the construction. *)

From Stdlib Require Import Ascii String ZArith.
From stdpp Require Import gmap strings list fin_maps pretty.

Set Warnings "-register-all".
Local Open Scope string_scope.

(** ** Python values *)

(** The values that occur in a logging configuration.  Dictionaries are
    finite maps keyed by strings. *)
Inductive value : Type :=
| VNone
| VBool (b : bool)
| VInt (n : Z)
| VStr (s : string)
| VList (l : list value)
| VDict (d : gmap string value).

(** A dict display [{k1: v1, ..., kn: vn}]: keys are inserted from left to
    right, a later duplicate key overrides an earlier one. *)
Definition dict_display (kvs : list (string * value)) : gmap string value :=
  foldl (fun d kv => <[kv.1 := kv.2]> d) ∅ kvs.

(** [dict.update(other)]: every key of [other] overrides the key of [d]. *)
Definition dict_update (d other : gmap string value) : gmap string value :=
  other ∪ d.

(** ** Strings *)

(** [str.upper] and [str.lower] on the ASCII range.  The strings this module
    upper-cases are the literals ["task"], ["dag_processing"], ["worker"],
    ["scheduler"] and ["webserver"].  The string it lower-cases comes from
    the environment and is only compared with ["true"]: bytes outside
    [A-Z] are left alone, and no code point outside ASCII lower-cases to one
    of the letters of ["true"], so the comparison agrees with Python's. *)
Definition ascii_upper (c : ascii) : ascii :=
  let n := nat_of_ascii c in
  if (97 <=? n)%nat && (n <=? 122)%nat then ascii_of_nat (n - 32) else c.

Definition ascii_lower (c : ascii) : ascii :=
  let n := nat_of_ascii c in
  if (65 <=? n)%nat && (n <=? 90)%nat then ascii_of_nat (n + 32) else c.

Fixpoint upper (s : string) : string :=
  match s with
  | EmptyString => EmptyString
  | String c s' => String (ascii_upper c) (upper s')
  end.

Fixpoint lower (s : string) : string :=
  match s with
  | EmptyString => EmptyString
  | String c s' => String (ascii_lower c) (lower s')
  end.

(** [os.path.basename]: what follows the last ['/'] of the path. *)
Fixpoint basename_from (acc p : string) : string :=
  match p with
  | EmptyString => acc
  | String c p' =>
      if Ascii.eqb c "/"%char then basename_from EmptyString p'
      else basename_from (acc ++ String c EmptyString) p'
  end.

Definition basename (p : string) : string := basename_from EmptyString p.

(** [logging.INFO] and [logging.getLevelName] on the levels of the standard
    [logging] module. *)
Definition logging_INFO : Z := 20%Z.

Definition getLevelName (level : Z) : string :=
  if decide (level = 50%Z) then "CRITICAL"
  else if decide (level = 40%Z) then "ERROR"
  else if decide (level = 30%Z) then "WARNING"
  else if decide (level = 20%Z) then "INFO"
  else if decide (level = 10%Z) then "DEBUG"
  else if decide (level = 0%Z) then "NOTSET"
  else "Level " ++ pretty level.

(** ** The interpreter state *)

(** The objects bound to the keys of [DEFAULT_LOGGING_CONFIG] live in a heap:
    [LOGGING_CONFIG = {**DEFAULT_LOGGING_CONFIG}] is a shallow copy, so both
    top-level dictionaries refer to the same ["handlers"] and ["loggers"]
    objects, and the setup calls mutate those objects in place.  Below the
    top level a dictionary is held by value: the module keeps no second
    reference to an inner entry. *)
Definition loc := positive.

Record world : Type := World {
  os_environ : gmap string string;
  heap : gmap loc value;
  LOGGING_CONFIG : gmap string loc;
}.

Definition set_heap (h : gmap loc value) (w : world) : world :=
  {| os_environ := os_environ w; heap := h; LOGGING_CONFIG := LOGGING_CONFIG w |}.

Definition set_LOGGING_CONFIG (c : gmap string loc) (w : world) : world :=
  {| os_environ := os_environ w; heap := heap w; LOGGING_CONFIG := c |}.

(** The exceptions the subscriptions and the [update] call can raise. *)
Inductive exn : Type :=
| KeyError (key : string)
| TypeError
| AttributeError.

(** Statements run in a state monad with exceptions: a statement that raises
    leaves the mutations made before it in the world. *)
Definition M (A : Type) : Type := world → (exn + A) * world.

#[global] Instance M_ret : MRet M := λ A x w, (inr x, w).

#[global] Instance M_bind : MBind M := λ A B f m w,
  match m w with
  | (inr x, w') => f x w'
  | (inl e, w') => (inl e, w')
  end.

(** [for x in xs: body]. *)
Fixpoint for_each {A : Type} (xs : list A) (body : A → M unit) : M unit :=
  match xs with
  | [] => mret tt
  | x :: xs' => body x ;; for_each xs' body
  end.

(** [os.environ.get(key, None)] and [os.environ.get(key, default)]. *)
Definition os_environ_get (key : string) : M (option string) :=
  λ w, (inr (os_environ w !! key), w).

Definition os_environ_get_default (key default : string) : M string :=
  λ w, (inr (from_option id default (os_environ w !! key)), w).

(** [LOGGING_CONFIG[key]]: the object bound to a top-level key. *)
Definition LOGGING_CONFIG_getitem (key : string) : M loc :=
  λ w, match LOGGING_CONFIG w !! key with
       | Some l => (inr l, w)
       | None => (inl (KeyError key), w)
       end.

(** [LOGGING_CONFIG = {**c}]: the name is bound to a new dictionary with
    the keys of [c], each bound to the object it is bound to in [c]. *)
Definition LOGGING_CONFIG_assign (c : gmap string loc) : M unit :=
  λ w, (inr tt, set_LOGGING_CONFIG c w).

(** [obj[key] = v] with a string key: only a dictionary accepts it. *)
Definition setitem (l : loc) (key : string) (v : value) : M unit :=
  λ w, match heap w !! l with
       | Some (VDict d) => (inr tt, set_heap (<[l := VDict (<[key := v]> d)]> (heap w)) w)
       | _ => (inl TypeError, w)
       end.

(** [obj[key].update(other)]: the subscription raises [KeyError] on a missing
    key and [TypeError] on an object that is not a dictionary; the attribute
    [update] exists on a dictionary only. *)
Definition getitem_update (l : loc) (key : string) (other : gmap string value) : M unit :=
  λ w, match heap w !! l with
       | Some (VDict d) =>
           match d !! key with
           | Some (VDict t) =>
               (inr tt,
                set_heap (<[l := VDict (<[key := VDict (dict_update t other)]> d)]> (heap w)) w)
           | Some _ => (inl AttributeError, w)
           | None => (inl (KeyError key), w)
           end
       | _ => (inl TypeError, w)
       end.

(** ** The imported names *)

(** A class object, as far as [_qualified_name] looks at it. *)
Record pyclass : Type := PyClass {
  __module__ : string;
  __qualname__ : string;
}.

(** [airflow.config_templates.airflow_local_settings]. *)
Record airflow_local_settings : Type := AirflowLocalSettings {
  BASE_LOG_FOLDER : string;
  DAG_PROCESSOR_MANAGER_LOG_LOCATION : string;
  DEFAULT_LOGGING_CONFIG : gmap string loc;
  PROCESSOR_FILENAME_TEMPLATE : string;
}.

(** [mwaa.logging.cloudwatch_handlers]. *)
Record cloudwatch_handlers_module : Type := CloudwatchHandlers {
  TaskLogHandler : pyclass;
  DagProcessorManagerLogHandler : pyclass;
  DagProcessingLogHandler : pyclass;
  SubprocessLogHandler : pyclass;
}.

(** ** The module *)

Section config.

Variable settings : airflow_local_settings.
Variable cloudwatch_handlers : cloudwatch_handlers_module.

(** [os.path.expanduser]: it may consult [HOME] and the password database. *)
Variable expanduser : gmap string string → string → string.

Definition os_path_expanduser (path : string) : M string :=
  λ w, (inr (expanduser (os_environ w) path), w).

Definition _qualified_name (cls : pyclass) : string :=
  let module := __module__ cls in
  let qualname := __qualname__ cls in
  module ++ "." ++ qualname.

Definition _get_mwaa_logging_env_vars (source : string) : M (option string * string * bool) :=
  log_group_arn ← os_environ_get
    ("MWAA__LOGGING__AIRFLOW_" ++ upper source ++ "_LOG_GROUP_ARN");
  log_level ← os_environ_get_default
    ("MWAA__LOGGING__AIRFLOW_" ++ upper source ++ "_LOG_LEVEL")
    (getLevelName logging_INFO);
  logging_enabled ← os_environ_get_default
    ("MWAA__LOGGING__AIRFLOW_" ++ upper source ++ "_LOGS_ENABLED") "false";
  mret (log_group_arn, log_level, String.eqb (lower logging_enabled) "true").

Definition _configure_task_logging : M unit :=
  '(log_group_arn, log_level, logging_enabled) ← _get_mwaa_logging_env_vars "task";
  match log_group_arn with
  | Some log_group_arn =>
      base_log_folder ← os_path_expanduser (BASE_LOG_FOLDER settings);
      handlers ← LOGGING_CONFIG_getitem "handlers";
      setitem handlers "task" (VDict (dict_display [
        ("class", VStr (_qualified_name (TaskLogHandler cloudwatch_handlers)));
        ("formatter", VStr "airflow");
        ("filters", VList [VStr "mask_secrets"]);
        ("base_log_folder", VStr base_log_folder);
        ("log_group_arn", VStr log_group_arn);
        ("enabled", VBool logging_enabled)
      ])) ;;
      loggers ← LOGGING_CONFIG_getitem "loggers";
      getitem_update loggers "airflow.task" (dict_display [
        ("level", VStr log_level)
      ])
  | None => mret tt
  end.

Definition _configure_dag_processing_logging : M unit :=
  '(log_group_arn, log_level, logging_enabled) ← _get_mwaa_logging_env_vars "dag_processing";
  match log_group_arn with
  | Some log_group_arn =>
      handlers ← LOGGING_CONFIG_getitem "handlers";
      setitem handlers "processor_manager" (VDict (dict_display [
        ("class", VStr (_qualified_name (DagProcessorManagerLogHandler cloudwatch_handlers)));
        ("formatter", VStr "airflow");
        ("log_group_arn", VStr log_group_arn);
        ("stream_name", VStr (basename (DAG_PROCESSOR_MANAGER_LOG_LOCATION settings)));
        ("enabled", VBool logging_enabled)
      ])) ;;
      loggers ← LOGGING_CONFIG_getitem "loggers";
      setitem loggers "airflow.processor_manager" (VDict (dict_display [
        ("handlers", VList [VStr "processor_manager"]);
        ("level", VStr log_level);
        ("propagate", VBool false)
      ])) ;;
      handlers ← LOGGING_CONFIG_getitem "handlers";
      setitem handlers "processor" (VDict (dict_display [
        ("class", VStr (_qualified_name (DagProcessingLogHandler cloudwatch_handlers)));
        ("formatter", VStr "airflow");
        ("log_group_arn", VStr log_group_arn);
        ("stream_name_template", VStr (PROCESSOR_FILENAME_TEMPLATE settings));
        ("enabled", VBool logging_enabled)
      ])) ;;
      loggers ← LOGGING_CONFIG_getitem "loggers";
      setitem loggers "airflow.processor" (VDict (dict_display [
        ("handlers", VList [VStr "processor"]);
        ("level", VStr log_level);
        ("propagate", VBool false)
      ]))
  | None => mret tt
  end.

Definition _configure_subprocesses_logging (subprocess_name : string)
    (log_group_arn : option string) (log_level : string) (logging_enabled : bool) : M unit :=
  let handler_name := "mwaa_" ++ subprocess_name in
  let logger_name := "mwaa." ++ subprocess_name in
  match log_group_arn with
  | Some log_group_arn =>
      handlers ← LOGGING_CONFIG_getitem "handlers";
      setitem handlers handler_name (VDict (dict_display [
        ("class", VStr (_qualified_name (SubprocessLogHandler cloudwatch_handlers)));
        ("formatter", VStr "airflow");
        ("filters", VList [VStr "mask_secrets"]);
        ("log_group_arn", VStr log_group_arn);
        ("stream_name_prefix", VStr subprocess_name);
        ("subprocess_name", VStr subprocess_name);
        ("enabled", VBool logging_enabled)
      ])) ;;
      loggers ← LOGGING_CONFIG_getitem "loggers";
      setitem loggers logger_name (VDict (dict_display [
        ("handlers", VList [VStr handler_name]);
        ("level", VStr log_level);
        ("propagate", VBool false)
      ]))
  | None => mret tt
  end.

Definition _configure : M unit :=
  _configure_task_logging ;;
  _configure_dag_processing_logging ;;
  for_each ["worker"; "scheduler"; "webserver"] (λ comp,
    '(log_group_arn, log_level, logging_enabled) ← _get_mwaa_logging_env_vars comp;
    _configure_subprocesses_logging comp log_group_arn log_level logging_enabled ;;
    _configure_subprocesses_logging (comp ++ "_requirements")
      log_group_arn log_level logging_enabled).

(** The module body: bind [LOGGING_CONFIG] to a shallow copy of
    [DEFAULT_LOGGING_CONFIG], then call [_configure]. *)
Definition module_body : M unit :=
  LOGGING_CONFIG_assign (DEFAULT_LOGGING_CONFIG settings) ;;
  _configure.

End config.

(** ** Reading a configuration *)

(** The dictionary bound to a top-level key of a configuration. *)
Definition dict_at (c : gmap string loc) (h : gmap loc value) (key : string) :
    option (gmap string value) :=
  match c !! key with
  | Some l => match h !! l with Some (VDict d) => Some d | _ => None end
  | None => None
  end.

(** The handlers and loggers of [LOGGING_CONFIG] in a world (empty when the
    key is not bound to a dictionary). *)
Definition handlers (w : world) : gmap string value :=
  default ∅ (dict_at (LOGGING_CONFIG w) (heap w) "handlers").

Definition loggers (w : world) : gmap string value :=
  default ∅ (dict_at (LOGGING_CONFIG w) (heap w) "loggers").

(** The handlers and loggers of [DEFAULT_LOGGING_CONFIG] in a world. *)
Definition default_handlers (settings : airflow_local_settings) (w : world) :
    gmap string value :=
  default ∅ (dict_at (DEFAULT_LOGGING_CONFIG settings) (heap w) "handlers").

Definition default_loggers (settings : airflow_local_settings) (w : world) :
    gmap string value :=
  default ∅ (dict_at (DEFAULT_LOGGING_CONFIG settings) (heap w) "loggers").

(** The world the module body leaves. *)
Definition loaded (settings : airflow_local_settings)
    (cloudwatch_handlers : cloudwatch_handlers_module)
    (expanduser : gmap string string → string → string) (w : world) : world :=
  (module_body settings cloudwatch_handlers expanduser w).2.

(** The shape Airflow gives [DEFAULT_LOGGING_CONFIG]: ["handlers"] and
    ["loggers"] are two distinct dictionaries and the loggers contain an
    ["airflow.task"] dictionary. *)
Definition defaults_ok (c : gmap string loc) (h : gmap loc value) : bool :=
  match c !! "handlers", c !! "loggers" with
  | Some lh, Some ll =>
      negb (Pos.eqb lh ll) &&
      match h !! lh, h !! ll with
      | Some (VDict _), Some (VDict dl) =>
          match dl !! "airflow.task" with Some (VDict _) => true | _ => false end
      | _, _ => false
      end
  | _, _ => false
  end.

(** A world whose ["handlers"] and ["loggers"] objects are the dictionaries
    [dh] and [dl]. *)
Definition with_dicts (env : gmap string string) (c : gmap string loc)
    (h : gmap loc value) (lh ll : loc) (dh dl : gmap string value) : world :=
  World env (<[ll := VDict dl]> (<[lh := VDict dh]> h)) c.

(** The three values [_get_mwaa_logging_env_vars] reads, by the name of the
    variable as the environment spells it. *)
Definition log_group_arn_var (env : gmap string string) (SOURCE : string) : option string :=
  env !! ("MWAA__LOGGING__AIRFLOW_" ++ SOURCE ++ "_LOG_GROUP_ARN").

Definition log_level_var (env : gmap string string) (SOURCE : string) : string :=
  from_option id "INFO" (env !! ("MWAA__LOGGING__AIRFLOW_" ++ SOURCE ++ "_LOG_LEVEL")).

Definition logs_enabled_var (env : gmap string string) (SOURCE : string) : bool :=
  String.eqb
    (lower (from_option id "false" (env !! ("MWAA__LOGGING__AIRFLOW_" ++ SOURCE ++ "_LOGS_ENABLED"))))
    "true".

(** [d[k] = f a] when the optional value is there, nothing otherwise. *)
Definition write_if {A : Type} (o : option A) (k : string) (f : A → value)
    (d : gmap string value) : gmap string value :=
  match o with
  | Some a => <[k := f a]> d
  | None => d
  end.

(** ** The entries and the effect of each setup call, in closed form *)

Section effects.

Variable settings : airflow_local_settings.
Variable cloudwatch_handlers : cloudwatch_handlers_module.

Definition task_handler (base_log_folder log_group_arn : string) (enabled : bool) : value :=
  VDict (dict_display [
    ("class", VStr (_qualified_name (TaskLogHandler cloudwatch_handlers)));
    ("formatter", VStr "airflow");
    ("filters", VList [VStr "mask_secrets"]);
    ("base_log_folder", VStr base_log_folder);
    ("log_group_arn", VStr log_group_arn);
    ("enabled", VBool enabled)
  ]).

Definition processor_manager_handler (log_group_arn : string) (enabled : bool) : value :=
  VDict (dict_display [
    ("class", VStr (_qualified_name (DagProcessorManagerLogHandler cloudwatch_handlers)));
    ("formatter", VStr "airflow");
    ("log_group_arn", VStr log_group_arn);
    ("stream_name", VStr (basename (DAG_PROCESSOR_MANAGER_LOG_LOCATION settings)));
    ("enabled", VBool enabled)
  ]).

Definition processor_handler (log_group_arn : string) (enabled : bool) : value :=
  VDict (dict_display [
    ("class", VStr (_qualified_name (DagProcessingLogHandler cloudwatch_handlers)));
    ("formatter", VStr "airflow");
    ("log_group_arn", VStr log_group_arn);
    ("stream_name_template", VStr (PROCESSOR_FILENAME_TEMPLATE settings));
    ("enabled", VBool enabled)
  ]).

Definition subprocess_handler (subprocess_name log_group_arn : string) (enabled : bool) : value :=
  VDict (dict_display [
    ("class", VStr (_qualified_name (SubprocessLogHandler cloudwatch_handlers)));
    ("formatter", VStr "airflow");
    ("filters", VList [VStr "mask_secrets"]);
    ("log_group_arn", VStr log_group_arn);
    ("stream_name_prefix", VStr subprocess_name);
    ("subprocess_name", VStr subprocess_name);
    ("enabled", VBool enabled)
  ]).

Definition logger_entry (handler_name log_level : string) : value :=
  VDict (dict_display [
    ("handlers", VList [VStr handler_name]);
    ("level", VStr log_level);
    ("propagate", VBool false)
  ]).

(** What [.update({"level": log_level})] makes of an ["airflow.task"] entry. *)
Definition task_logger_update (log_level : string) (entry : value) : value :=
  match entry with
  | VDict t => VDict (dict_update t (dict_display [("level", VStr log_level)]))
  | _ => entry
  end.

Definition task_handlers (env : gmap string string) (base_log_folder : string)
    (dh : gmap string value) : gmap string value :=
  write_if (log_group_arn_var env "TASK") "task"
    (λ arn, task_handler base_log_folder arn (logs_enabled_var env "TASK")) dh.

Definition task_loggers (env : gmap string string) (dl : gmap string value) :
    gmap string value :=
  match log_group_arn_var env "TASK" with
  | Some _ => alter (task_logger_update (log_level_var env "TASK")) "airflow.task" dl
  | None => dl
  end.

Definition dag_processing_handlers (env : gmap string string) (dh : gmap string value) :
    gmap string value :=
  write_if (log_group_arn_var env "DAG_PROCESSING") "processor"
    (λ arn, processor_handler arn (logs_enabled_var env "DAG_PROCESSING"))
    (write_if (log_group_arn_var env "DAG_PROCESSING") "processor_manager"
       (λ arn, processor_manager_handler arn (logs_enabled_var env "DAG_PROCESSING")) dh).

Definition dag_processing_loggers (env : gmap string string) (dl : gmap string value) :
    gmap string value :=
  write_if (log_group_arn_var env "DAG_PROCESSING") "airflow.processor"
    (λ _, logger_entry "processor" (log_level_var env "DAG_PROCESSING"))
    (write_if (log_group_arn_var env "DAG_PROCESSING") "airflow.processor_manager"
       (λ _, logger_entry "processor_manager" (log_level_var env "DAG_PROCESSING")) dl).

Definition subprocess_handlers (env : gmap string string) (comp COMP : string)
    (dh : gmap string value) : gmap string value :=
  write_if (log_group_arn_var env COMP) ("mwaa_" ++ comp ++ "_requirements")
    (λ arn, subprocess_handler (comp ++ "_requirements") arn (logs_enabled_var env COMP))
    (write_if (log_group_arn_var env COMP) ("mwaa_" ++ comp)
       (λ arn, subprocess_handler comp arn (logs_enabled_var env COMP)) dh).

Definition subprocess_loggers (env : gmap string string) (comp COMP : string)
    (dl : gmap string value) : gmap string value :=
  write_if (log_group_arn_var env COMP) ("mwaa." ++ comp ++ "_requirements")
    (λ _, logger_entry ("mwaa_" ++ comp ++ "_requirements") (log_level_var env COMP))
    (write_if (log_group_arn_var env COMP) ("mwaa." ++ comp)
       (λ _, logger_entry ("mwaa_" ++ comp) (log_level_var env COMP)) dl).

(** The handlers and the loggers once [_configure] has returned. *)
Definition handlers_after (env : gmap string string) (base_log_folder : string)
    (dh : gmap string value) : gmap string value :=
  subprocess_handlers env "webserver" "WEBSERVER"
    (subprocess_handlers env "scheduler" "SCHEDULER"
       (subprocess_handlers env "worker" "WORKER"
          (dag_processing_handlers env (task_handlers env base_log_folder dh)))).

Definition loggers_after (env : gmap string string) (dl : gmap string value) :
    gmap string value :=
  subprocess_loggers env "webserver" "WEBSERVER"
    (subprocess_loggers env "scheduler" "SCHEDULER"
       (subprocess_loggers env "worker" "WORKER"
          (dag_processing_loggers env (task_loggers env dl)))).

(** The handler entries by name: the source whose variables drive the entry
    and the entry as a function of the log group ARN and the enablement flag. *)
Definition handler_rows (base_log_folder : string) :
    list (string * (string * (string → bool → value))) := [
  ("task", ("TASK", task_handler base_log_folder));
  ("processor_manager", ("DAG_PROCESSING", processor_manager_handler));
  ("processor", ("DAG_PROCESSING", processor_handler));
  ("mwaa_worker", ("WORKER", subprocess_handler "worker"));
  ("mwaa_worker_requirements", ("WORKER", subprocess_handler "worker_requirements"));
  ("mwaa_scheduler", ("SCHEDULER", subprocess_handler "scheduler"));
  ("mwaa_scheduler_requirements", ("SCHEDULER", subprocess_handler "scheduler_requirements"));
  ("mwaa_webserver", ("WEBSERVER", subprocess_handler "webserver"));
  ("mwaa_webserver_requirements", ("WEBSERVER", subprocess_handler "webserver_requirements"))
].

End effects.

(** The logger entries the module creates, by name: the source whose
    variables drive the entry and the handler it attaches. *)
Definition logger_rows : list (string * (string * string)) := [
  ("airflow.processor_manager", ("DAG_PROCESSING", "processor_manager"));
  ("airflow.processor", ("DAG_PROCESSING", "processor"));
  ("mwaa.worker", ("WORKER", "mwaa_worker"));
  ("mwaa.worker_requirements", ("WORKER", "mwaa_worker_requirements"));
  ("mwaa.scheduler", ("SCHEDULER", "mwaa_scheduler"));
  ("mwaa.scheduler_requirements", ("SCHEDULER", "mwaa_scheduler_requirements"));
  ("mwaa.webserver", ("WEBSERVER", "mwaa_webserver"));
  ("mwaa.webserver_requirements", ("WEBSERVER", "mwaa_webserver_requirements"))
].

Fixpoint lookup_row {A : Type} (k : string) (rows : list (string * A)) : option A :=
  match rows with
  | [] => None
  | (k', a) :: rows' => if decide (k' = k) then Some a else lookup_row k rows'
  end.

(** Writing the rows of a table in order, each under the presence test of
    its source's log group ARN. *)
Definition apply_rows {B : Type} (env : gmap string string)
    (entry : string → B → string → value) (rows : list (string * (string * B)))
    (d : gmap string value) : gmap string value :=
  foldl (λ d r, write_if (log_group_arn_var env r.2.1) r.1 (entry r.2.1 r.2.2) d) d rows.

Definition handler_of_row (env : gmap string string) (SOURCE : string)
    (mk : string → bool → value) (arn : string) : value :=
  mk arn (logs_enabled_var env SOURCE).

Definition logger_of_row (env : gmap string string) (SOURCE handler_name : string)
    (_ : string) : value :=
  logger_entry handler_name (log_level_var env SOURCE).

(** A statement that leaves the environment and the binding of
    [LOGGING_CONFIG] alone and neither creates nor drops a top-level
    object: whatever it changes, it changes inside the existing objects. *)
Definition keeps_bindings {A : Type} (m : M A) : Prop :=
  ∀ w, os_environ (m w).2 = os_environ w ∧
       LOGGING_CONFIG (m w).2 = LOGGING_CONFIG w ∧
       dom (heap (m w).2) = dom (heap w).

(** ** The names the properties range over *)


(** The five sources [_get_mwaa_logging_env_vars] is called with, as the
    environment spells them. *)
Definition sources : list string :=
  ["TASK"; "DAG_PROCESSING"; "WORKER"; "SCHEDULER"; "WEBSERVER"].

(** The handler/logger pairs the module registers, each with the source
    whose variables drive it. *)
Definition registrations : list (string * string * string) := [
  ("TASK", "task", "airflow.task");
  ("DAG_PROCESSING", "processor_manager", "airflow.processor_manager");
  ("DAG_PROCESSING", "processor", "airflow.processor");
  ("WORKER", "mwaa_worker", "mwaa.worker");
  ("WORKER", "mwaa_worker_requirements", "mwaa.worker_requirements");
  ("SCHEDULER", "mwaa_scheduler", "mwaa.scheduler");
  ("SCHEDULER", "mwaa_scheduler_requirements", "mwaa.scheduler_requirements");
  ("WEBSERVER", "mwaa_webserver", "mwaa.webserver");
  ("WEBSERVER", "mwaa_webserver_requirements", "mwaa.webserver_requirements")
].

(** The components of the loop of [_configure], lower and upper case. *)
Definition components : list (string * string) :=
  [("worker", "WORKER"); ("scheduler", "SCHEDULER"); ("webserver", "WEBSERVER")].

(** Two environments that agree on every variable the module reads. *)
Definition same_variables (env1 env2 : gmap string string) : Prop :=
  ∀ SOURCE suffix,
    SOURCE ∈ sources →
    suffix ∈ ["_LOG_GROUP_ARN"; "_LOG_LEVEL"; "_LOGS_ENABLED"] →
    env1 !! ("MWAA__LOGGING__AIRFLOW_" ++ SOURCE ++ suffix) =
    env2 !! ("MWAA__LOGGING__AIRFLOW_" ++ SOURCE ++ suffix).

(** A string that equals ["true"] when case is ignored. *)
Definition is_true_ignoring_case (v : string) : Prop :=
  ∃ c1 c2 c3 c4 : ascii,
    v = String c1 (String c2 (String c3 (String c4 EmptyString))) ∧
    (c1 = "t" ∨ c1 = "T")%char ∧ (c2 = "r" ∨ c2 = "R")%char ∧
    (c3 = "u" ∨ c3 = "U")%char ∧ (c4 = "e" ∨ c4 = "E")%char.

(** An entry that carries the handler parameters of the data model: a
    class reference, a formatter name, the log group ARN and the enablement
    flag. *)
Definition has_handler_parameters (arn : string) (enabled : bool) (entry : value) : Prop :=
  ∃ params cls fmt,
    entry = VDict params ∧
    params !! "class" = Some (VStr cls) ∧
    params !! "formatter" = Some (VStr fmt) ∧
    params !! "log_group_arn" = Some (VStr arn) ∧
    params !! "enabled" = Some (VBool enabled).

(** An entry that carries the logger parameters of the data model: the
    attached handlers (a single one), the level and the propagation flag. *)
Definition has_logger_parameters (handler level : string) (propagate : bool)
    (entry : value) : Prop :=
  ∃ params,
    entry = VDict params ∧
    params !! "handlers" = Some (VList [VStr handler]) ∧
    params !! "level" = Some (VStr level) ∧
    params !! "propagate" = Some (VBool propagate).

(** Whether a character occurs in a string. *)
Fixpoint occurs (c : ascii) (s : string) : bool :=
  match s with
  | EmptyString => false
  | String c' s' => Ascii.eqb c' c || occurs c s'
  end.

(** The handler names and the logger names of the registrations. *)
Definition registered_handlers : list string := (λ r, r.1.2) <$> registrations.
Definition registered_loggers : list string := (λ r, r.2) <$> registrations.

(** ** Sample inputs *)

Definition sample_cloudwatch_handlers : cloudwatch_handlers_module := {|
  TaskLogHandler := PyClass "mwaa.logging.cloudwatch_handlers" "TaskLogHandler";
  DagProcessorManagerLogHandler :=
    PyClass "mwaa.logging.cloudwatch_handlers" "DagProcessorManagerLogHandler";
  DagProcessingLogHandler :=
    PyClass "mwaa.logging.cloudwatch_handlers" "DagProcessingLogHandler";
  SubprocessLogHandler := PyClass "mwaa.logging.cloudwatch_handlers" "SubprocessLogHandler";
|}.

(** [DEFAULT_LOGGING_CONFIG] with its ["version"], ["handlers"] and
    ["loggers"] keys bound to the objects 1, 2 and 3. *)
Definition sample_settings : airflow_local_settings := {|
  BASE_LOG_FOLDER := "/usr/local/airflow/logs";
  DAG_PROCESSOR_MANAGER_LOG_LOCATION :=
    "/usr/local/airflow/logs/dag_processor_manager/dag_processor_manager.log";
  DEFAULT_LOGGING_CONFIG :=
    <["version" := 1%positive]> (<["handlers" := 2%positive]> (<["loggers" := 3%positive]> ∅));
  PROCESSOR_FILENAME_TEMPLATE := "{{ filename }}.log";
|}.

(** An [expanduser] that replaces a leading ["~"] by [HOME]. *)
Definition sample_expanduser (env : gmap string string) (path : string) : string :=
  match path with
  | String "~"%char rest => from_option (λ home, home ++ rest) path (env !! "HOME")
  | _ => path
  end.

(** The handlers and loggers Airflow ships, abridged. *)
Definition sample_default_handlers : gmap string value := dict_display [
  ("console", VDict (dict_display [
     ("class", VStr "airflow.utils.log.logging_mixin.RedirectStdHandler");
     ("formatter", VStr "airflow_coloured");
     ("stream", VStr "sys.stdout");
     ("filters", VList [VStr "mask_secrets"])]));
  ("task", VDict (dict_display [
     ("class", VStr "airflow.utils.log.file_task_handler.FileTaskHandler");
     ("formatter", VStr "airflow");
     ("base_log_folder", VStr "/usr/local/airflow/logs");
     ("filters", VList [VStr "mask_secrets"])]));
  ("processor", VDict (dict_display [
     ("class", VStr "airflow.utils.log.file_processor_handler.FileProcessorHandler");
     ("formatter", VStr "airflow");
     ("base_log_folder", VStr "/usr/local/airflow/logs/scheduler");
     ("filename_template", VStr "{{ filename }}.log");
     ("filters", VList [VStr "mask_secrets"])]))
].

Definition sample_default_loggers : gmap string value := dict_display [
  ("airflow.processor", VDict (dict_display [
     ("handlers", VList [VStr "processor"]);
     ("level", VStr "INFO");
     ("propagate", VBool true)]));
  ("airflow.task", VDict (dict_display [
     ("handlers", VList [VStr "task"]);
     ("level", VStr "INFO");
     ("propagate", VBool true);
     ("filters", VList [VStr "mask_secrets"])]));
  ("flask_appbuilder", VDict (dict_display [
     ("handlers", VList [VStr "console"]);
     ("level", VStr "WARNING");
     ("propagate", VBool true)]))
].

Definition sample_heap : gmap loc value :=
  <[1%positive := VInt 1]>
    (<[2%positive := VDict sample_default_handlers]>
       (<[3%positive := VDict sample_default_loggers]> ∅)).

(** A world before the module is loaded, for an environment. *)
Definition sample_world (env : gmap string string) : world :=
  {| os_environ := env; heap := sample_heap; LOGGING_CONFIG := ∅ |}.



(** Defaults without an ["airflow.task"] logger, and defaults whose
    ["handlers"] key is bound to a list. *)
Definition no_task_logger_world (env : gmap string string) : world :=
  {| os_environ := env;
     heap := <[2%positive := VDict sample_default_handlers]> (<[3%positive := VDict ∅]> ∅);
     LOGGING_CONFIG := ∅ |}.

Definition handlers_list_world (env : gmap string string) : world :=
  {| os_environ := env;
     heap := <[2%positive := VList []]> (<[3%positive := VDict sample_default_loggers]> ∅);
     LOGGING_CONFIG := ∅ |}.

(** An environment that sets every variable of the task and worker sources
    and the ARN of DAG processing. *)
Definition sample_env : gmap string string :=
  <["MWAA__LOGGING__AIRFLOW_TASK_LOG_GROUP_ARN" :=
      "arn:aws:logs:us-west-2:123456789012:log-group:airflow-Task"]>
  (<["MWAA__LOGGING__AIRFLOW_TASK_LOG_LEVEL" := "DEBUG"]>
  (<["MWAA__LOGGING__AIRFLOW_TASK_LOGS_ENABLED" := "true"]>
  (<["MWAA__LOGGING__AIRFLOW_DAG_PROCESSING_LOG_GROUP_ARN" :=
      "arn:aws:logs:us-west-2:123456789012:log-group:airflow-DAGProcessing"]>
  (<["MWAA__LOGGING__AIRFLOW_WORKER_LOG_GROUP_ARN" :=
      "arn:aws:logs:us-west-2:123456789012:log-group:airflow-Worker"]>
  (<["MWAA__LOGGING__AIRFLOW_WORKER_LOG_LEVEL" := "WARNING"]>
  (<["MWAA__LOGGING__AIRFLOW_WORKER_LOGS_ENABLED" := "True"]>
  (<["HOME" := "/usr/local/airflow"]> ∅))))))).

(** The environment [sample_env] with other values for the same variables. *)
Definition sample_env_other : gmap string string :=
  <["MWAA__LOGGING__AIRFLOW_TASK_LOG_GROUP_ARN" :=
      "arn:aws:logs:eu-west-1:210987654321:log-group:other-Task"]>
  (<["MWAA__LOGGING__AIRFLOW_DAG_PROCESSING_LOG_GROUP_ARN" :=
      "arn:aws:logs:eu-west-1:210987654321:log-group:other-DAGProcessing"]>
  (<["MWAA__LOGGING__AIRFLOW_WORKER_LOG_GROUP_ARN" :=
      "arn:aws:logs:eu-west-1:210987654321:log-group:other-Worker"]>
  (<["MWAA__LOGGING__AIRFLOW_WORKER_LOGS_ENABLED" := "false"]> ∅))).

(** The environment [sample_env] with one more variable, which the module
    does not read. *)
Definition sample_env_unrelated : gmap string string :=
  <["AIRFLOW__CORE__EXECUTOR" := "CeleryExecutor"]> sample_env.

(** A world in which [LOGGING_CONFIG] is bound already. *)
Definition sample_bound_world (env : gmap string string) : world :=
  {| os_environ := env; heap := sample_heap;
     LOGGING_CONFIG := DEFAULT_LOGGING_CONFIG sample_settings |}.

(** An environment that sets levels and flags but no log group. *)
Definition sample_env_no_log_groups : gmap string string :=
  <["MWAA__LOGGING__AIRFLOW_WORKER_LOG_LEVEL" := "DEBUG"]>
  (<["MWAA__LOGGING__AIRFLOW_WORKER_LOGS_ENABLED" := "true"]>
  (<["MWAA__LOGGING__AIRFLOW_TASK_LOGS_ENABLED" := "true"]> ∅)).

(** An environment that only names the log group of the worker. *)
Definition worker_only_env : gmap string string :=
  <["MWAA__LOGGING__AIRFLOW_WORKER_LOG_GROUP_ARN" :=
      "arn:aws:logs:us-west-2:123456789012:log-group:airflow-Worker"]> ∅.

(** * Properties *)

(** ** The exceptions *)

(** Without an ["airflow.task"] logger the module body raises [KeyError]
    after it has replaced the task handler: the mutation stays. *)
Example module_body_KeyError :
  (module_body sample_settings sample_cloudwatch_handlers sample_expanduser
     (no_task_logger_world sample_env)).1 = inl (KeyError "airflow.task") ∧
  handlers (loaded sample_settings sample_cloudwatch_handlers sample_expanduser
              (no_task_logger_world sample_env)) !! "task" =
    Some (task_handler sample_cloudwatch_handlers "/usr/local/airflow/logs"
            "arn:aws:logs:us-west-2:123456789012:log-group:airflow-Task" true).
Proof. split; reflexivity. Qed.

(** A ["handlers"] object that is not a dictionary refuses the item
    assignment. *)
Example module_body_TypeError :
  (module_body sample_settings sample_cloudwatch_handlers sample_expanduser
     (handlers_list_world sample_env)).1 = inl TypeError.
Proof. reflexivity. Qed.

(** With no log group ARN in the environment nothing is subscripted and
    nothing is raised, whatever the defaults are. *)
Example module_body_empty_environment :
  module_body sample_settings sample_cloudwatch_handlers sample_expanduser
    (handlers_list_world ∅) =
  (inr tt, set_LOGGING_CONFIG (DEFAULT_LOGGING_CONFIG sample_settings) (handlers_list_world ∅)).
Proof. reflexivity. Qed.

(** ** Stepping through the monad *)

Lemma bind_run {A B} (m : M A) (f : A → M B) w x w' :
  m w = (inr x, w') → (m ≫= f) w = f x w'.
Proof. intros H. unfold mbind, M_bind. by rewrite H. Qed.

Lemma run_env_vars source w :
  _get_mwaa_logging_env_vars source w =
  (inr (log_group_arn_var (os_environ w) (upper source),
        log_level_var (os_environ w) (upper source),
        logs_enabled_var (os_environ w) (upper source)), w).
Proof. reflexivity. Qed.

(** *** Running the setup calls on a world of the expected shape *)

Section run.
Variable settings : airflow_local_settings.
Variable cloudwatch_handlers : cloudwatch_handlers_module.
Variable expanduser : gmap string string → string → string.
Variables (env : gmap string string) (c : gmap string loc) (h : gmap loc value) (lh ll : loc).
Hypothesis Hh : c !! "handlers" = Some lh.
Hypothesis Hl : c !! "loggers" = Some ll.
Hypothesis Hne : lh ≠ ll.
#[local] Abbreviation wd := (with_dicts env c h lh ll).

Lemma run_getitem_handlers dh dl :
  LOGGING_CONFIG_getitem "handlers" (wd dh dl) = (inr lh, wd dh dl).
Proof. unfold LOGGING_CONFIG_getitem. simpl. by rewrite Hh. Qed.

Lemma run_getitem_loggers dh dl :
  LOGGING_CONFIG_getitem "loggers" (wd dh dl) = (inr ll, wd dh dl).
Proof. unfold LOGGING_CONFIG_getitem. simpl. by rewrite Hl. Qed.

Lemma run_setitem_handlers k v dh dl :
  setitem lh k v (wd dh dl) = (inr tt, wd (<[k:=v]> dh) dl).
Proof.
  unfold setitem, with_dicts, set_heap. simpl.
  rewrite lookup_insert_ne by done. rewrite lookup_insert_eq.
  do 2 f_equal. rewrite insert_insert_ne by done. by rewrite insert_insert_eq.
Qed.

Lemma run_setitem_loggers k v dh dl :
  setitem ll k v (wd dh dl) = (inr tt, wd dh (<[k:=v]> dl)).
Proof.
  unfold setitem, with_dicts, set_heap. simpl.
  rewrite lookup_insert_eq. do 2 f_equal. by rewrite insert_insert_eq.
Qed.

Lemma run_update_loggers k other t dh dl :
  dl !! k = Some (VDict t) →
  getitem_update ll k other (wd dh dl) =
  (inr tt, wd dh (<[k := VDict (dict_update t other)]> dl)).
Proof.
  intros Ht. unfold getitem_update, with_dicts, set_heap. simpl.
  rewrite lookup_insert_eq, Ht. do 2 f_equal. by rewrite insert_insert_eq.
Qed.

Lemma run_env_vars_wd source dh dl :
  _get_mwaa_logging_env_vars source (wd dh dl) =
  (inr (log_group_arn_var env (upper source), log_level_var env (upper source),
        logs_enabled_var env (upper source)), wd dh dl).
Proof. reflexivity. Qed.

Lemma run_expanduser p dh dl :
  os_path_expanduser expanduser p (wd dh dl) = (inr (expanduser env p), wd dh dl).
Proof. reflexivity. Qed.

Ltac step :=
  first
    [ (etransitivity; [eapply bind_run; apply run_env_vars_wd|])
    | (etransitivity; [eapply bind_run; apply run_expanduser|])
    | (etransitivity; [eapply bind_run; apply run_getitem_handlers|])
    | (etransitivity; [eapply bind_run; apply run_getitem_loggers|])
    | (etransitivity; [eapply bind_run; apply run_setitem_handlers|])
    | (etransitivity; [eapply bind_run; apply run_setitem_loggers|])
    | (etransitivity; [apply run_setitem_handlers|])
    | (etransitivity; [apply run_setitem_loggers|]) ].

Lemma run_configure_task_logging t dh dl :
  dl !! "airflow.task" = Some (VDict t) →
  _configure_task_logging settings cloudwatch_handlers expanduser (wd dh dl) =
  (inr tt, wd (task_handlers cloudwatch_handlers env (expanduser env (BASE_LOG_FOLDER settings)) dh)
              (task_loggers env dl)).
Proof.
  intros Ht. unfold _configure_task_logging, task_handlers, task_loggers.
  step. change (upper "task") with "TASK".
  destruct (log_group_arn_var env "TASK") as [arn|]; [|reflexivity].
  repeat step.
  etransitivity; [by eapply run_update_loggers|].
  do 3 f_equal. apply map_eq. intros k. rewrite lookup_alter.
  destruct (decide ("airflow.task" = k)) as [<-|].
  - rewrite lookup_insert_eq.  by rewrite Ht.
  - by rewrite lookup_insert_ne.
Qed.

Lemma run_configure_dag_processing_logging dh dl :
  _configure_dag_processing_logging settings cloudwatch_handlers (wd dh dl) =
  (inr tt, wd (dag_processing_handlers settings cloudwatch_handlers env dh)
              (dag_processing_loggers env dl)).
Proof.
  unfold _configure_dag_processing_logging, dag_processing_handlers, dag_processing_loggers.
  step. change (upper "dag_processing") with "DAG_PROCESSING".
  destruct (log_group_arn_var env "DAG_PROCESSING") as [arn|]; [|reflexivity].
  repeat step. done.
Qed.

Lemma run_configure_subprocesses_logging name arn level enabled dh dl :
  _configure_subprocesses_logging cloudwatch_handlers name arn level enabled (wd dh dl) =
  (inr tt, wd (write_if arn ("mwaa_" ++ name)
                 (λ a, subprocess_handler cloudwatch_handlers name a enabled) dh)
              (write_if arn ("mwaa." ++ name) (λ _, logger_entry ("mwaa_" ++ name) level) dl)).
Proof.
  unfold _configure_subprocesses_logging.
  destruct arn as [arn|]; [|reflexivity].
  repeat step. done.
Qed.

Lemma run_component comp dh dl :
  ('(log_group_arn, log_level, logging_enabled) ← _get_mwaa_logging_env_vars comp;
   _configure_subprocesses_logging cloudwatch_handlers comp
     log_group_arn log_level logging_enabled ;;
   _configure_subprocesses_logging cloudwatch_handlers (comp ++ "_requirements")
     log_group_arn log_level logging_enabled) (wd dh dl) =
  (inr tt, wd (subprocess_handlers cloudwatch_handlers env comp (upper comp) dh)
              (subprocess_loggers env comp (upper comp) dl)).
Proof.
  (etransitivity; [eapply bind_run; apply run_env_vars_wd|]).
  (etransitivity; [eapply bind_run; apply run_configure_subprocesses_logging|]).
  apply run_configure_subprocesses_logging.
Qed.

Lemma run_configure t dh dl :
  dl !! "airflow.task" = Some (VDict t) →
  _configure settings cloudwatch_handlers expanduser (wd dh dl) =
  (inr tt, wd (handlers_after settings cloudwatch_handlers env
                 (expanduser env (BASE_LOG_FOLDER settings)) dh)
              (loggers_after env dl)).
Proof.
  intros Ht. unfold _configure.
  (etransitivity; [eapply bind_run; eapply run_configure_task_logging; exact Ht|]).
  (etransitivity; [eapply bind_run; apply run_configure_dag_processing_logging|]).
  unfold for_each.
  repeat (etransitivity; [eapply bind_run; apply run_component|]).
  reflexivity.
Qed.
End run.

(** *** The entries after the run, key by key *)

Lemma lookup_write_if {A} (o : option A) k f d k' :
  write_if o k f d !! k' =
  if decide (k = k') then from_option (λ a, Some (f a)) (d !! k') o else d !! k'.
Proof.
  unfold write_if. destruct o as [a|]; simpl.
  - rewrite lookup_insert. by case_decide.
  - by case_decide.
Qed.

Lemma lookup_row_Some {A} k (rows : list (string * A)) a :
  lookup_row k rows = Some a → (k, a) ∈ rows.
Proof.
  induction rows as [|[k' a'] rows IH]; simpl; [done|].
  case_decide as Hk.
  - intros [= ->]. subst k'. apply list_elem_of_here.
  - intros Hr. apply list_elem_of_further. by apply IH.
Qed.

Lemma lookup_row_None {A} k (rows : list (string * A)) :
  lookup_row k rows = None ↔ k ∉ rows.*1.
Proof.
  induction rows as [|[k' a'] rows IH]; simpl.
  - split; [intros _; apply not_elem_of_nil|done].
  - rewrite not_elem_of_cons, <- IH. case_decide as Hk.
    + split; [done|]. intros [Hne _]. by destruct Hne.
    + split; [intros H; split; [by intros ->|done]|by intros [_ H]].
Qed.

Lemma lookup_row_elem_of {A} k (rows : list (string * A)) a :
  NoDup rows.*1 → (k, a) ∈ rows → lookup_row k rows = Some a.
Proof.
  induction rows as [|[k' a'] rows IH]; simpl.
  - intros _ H. by apply elem_of_nil in H.
  - rewrite NoDup_cons. intros [Hk' Hnd] [Heq|Hin]%elem_of_cons.
    + simplify_eq. by rewrite decide_True.
    + rewrite decide_False; [by apply IH|].
      intros ->. apply Hk'. apply list_elem_of_fmap. by exists (k, a).
Qed.

Lemma apply_rows_lookup {B} env (entry : string → B → string → value) rows d k :
  NoDup rows.*1 →
  apply_rows env entry rows d !! k =
  match lookup_row k rows with
  | Some (SRC, b) =>
      from_option (λ a, Some (entry SRC b a)) (d !! k) (log_group_arn_var env SRC)
  | None => d !! k
  end.
Proof.
  unfold apply_rows. revert d.
  induction rows as [|[k' [SRC b]] rows IH]; intros d; simpl; [done|].
  rewrite NoDup_cons. intros [Hk' Hnd]. rewrite IH by done.
  rewrite lookup_write_if. simpl. case_decide as Hk.
  - subst k'. apply lookup_row_None in Hk'. by rewrite Hk'.
  - done.
Qed.

Lemma handlers_after_rows settings cw env base dh :
  handlers_after settings cw env base dh =
  apply_rows env (handler_of_row env) (handler_rows settings cw base) dh.
Proof. reflexivity. Qed.

Lemma loggers_after_rows env dl :
  loggers_after env dl = apply_rows env (logger_of_row env) logger_rows (task_loggers env dl).
Proof. reflexivity. Qed.

Lemma handler_rows_NoDup settings cw base : NoDup (handler_rows settings cw base).*1.
Proof. simpl. compute_done. Qed.

Lemma logger_rows_NoDup : NoDup logger_rows.*1.
Proof. compute_done. Qed.

Lemma handlers_after_lookup settings cw env base dh k :
  handlers_after settings cw env base dh !! k =
  match lookup_row k (handler_rows settings cw base) with
  | Some (SRC, mk) =>
      from_option (λ a, Some (mk a (logs_enabled_var env SRC))) (dh !! k)
        (log_group_arn_var env SRC)
  | None => dh !! k
  end.
Proof.
  rewrite handlers_after_rows.
  apply (apply_rows_lookup env (handler_of_row env)), handler_rows_NoDup.
Qed.

Lemma task_loggers_lookup env dl k :
  task_loggers env dl !! k =
  if decide (k = "airflow.task") then
    match log_group_arn_var env "TASK" with
    | Some _ => task_logger_update (log_level_var env "TASK") <$> dl !! k
    | None => dl !! k
    end
  else dl !! k.
Proof.
  unfold task_loggers. destruct (log_group_arn_var env "TASK"); [|by case_decide].
  case_decide as Hk.
  - subst k. by rewrite lookup_alter_eq.
  - by rewrite lookup_alter_ne.
Qed.

Lemma loggers_after_lookup env dl k :
  loggers_after env dl !! k =
  match lookup_row k logger_rows with
  | Some (SRC, hn) =>
      from_option (λ _, Some (logger_entry hn (log_level_var env SRC)))
        (task_loggers env dl !! k) (log_group_arn_var env SRC)
  | None => task_loggers env dl !! k
  end.
Proof.
  rewrite loggers_after_rows.
  apply (apply_rows_lookup env (logger_of_row env)), logger_rows_NoDup.
Qed.

Lemma defaults_ok_shape c h :
  defaults_ok c h = true →
  ∃ lh ll dh dl t,
    c !! "handlers" = Some lh ∧ c !! "loggers" = Some ll ∧ lh ≠ ll ∧
    h !! lh = Some (VDict dh) ∧ h !! ll = Some (VDict dl) ∧
    dl !! "airflow.task" = Some (VDict t).
Proof.
  unfold defaults_ok. intros H.
  destruct (c !! "handlers") as [lh|]; [|done].
  destruct (c !! "loggers") as [ll|]; [|done].
  apply andb_prop in H as [Hne H].
  destruct (h !! lh) as [[| | | | |dh]|] eqn:Hdh; try done.
  destruct (h !! ll) as [[| | | | |dl]|] eqn:Hdl; try done.
  destruct (dl !! "airflow.task") as [[| | | | |t]|] eqn:Ht; try done.
  exists lh, ll, dh, dl, t. split_and!; try done.
  intros ->. by rewrite Pos.eqb_refl in Hne.
Qed.

(** *** The module body on defaults of the expected shape *)

Section load.
Variable settings : airflow_local_settings.
Variable cloudwatch_handlers : cloudwatch_handlers_module.
Variable expanduser : gmap string string → string → string.

#[local] Abbreviation D := (DEFAULT_LOGGING_CONFIG settings).
#[local] Abbreviation base_of w := (expanduser (os_environ w) (BASE_LOG_FOLDER settings)).

Lemma module_body_run w0 lh ll dh dl t :
  D !! "handlers" = Some lh → D !! "loggers" = Some ll → lh ≠ ll →
  heap w0 !! lh = Some (VDict dh) → heap w0 !! ll = Some (VDict dl) →
  dl !! "airflow.task" = Some (VDict t) →
  module_body settings cloudwatch_handlers expanduser w0 =
  (inr tt, with_dicts (os_environ w0) D (heap w0) lh ll
             (handlers_after settings cloudwatch_handlers (os_environ w0) (base_of w0) dh)
             (loggers_after (os_environ w0) dl)).
Proof.
  intros Hh Hl Hne Hdh Hdl Ht. unfold module_body.
  etransitivity; [eapply bind_run; reflexivity|].
  replace (set_LOGGING_CONFIG D w0) with (with_dicts (os_environ w0) D (heap w0) lh ll dh dl).
  - by eapply run_configure.
  - unfold with_dicts, set_LOGGING_CONFIG. f_equal.
    rewrite (insert_id (heap w0) lh) by done. by apply insert_id.
Qed.

Lemma handlers_with_dicts env c h lh ll dh dl :
  c !! "handlers" = Some lh → lh ≠ ll →
  handlers (with_dicts env c h lh ll dh dl) = dh.
Proof.
  intros Hh Hne. unfold handlers, dict_at, with_dicts. simpl. rewrite Hh.
  rewrite lookup_insert_ne by done. by rewrite lookup_insert_eq.
Qed.

Lemma loggers_with_dicts env c h lh ll dh dl :
  c !! "loggers" = Some ll →
  loggers (with_dicts env c h lh ll dh dl) = dl.
Proof.
  intros Hl. unfold loggers, dict_at, with_dicts. simpl. rewrite Hl.
  by rewrite lookup_insert_eq.
Qed.

(** What the module body does to a world whose defaults have the expected shape. *)
Lemma module_body_spec w0 :
  defaults_ok D (heap w0) = true →
  (module_body settings cloudwatch_handlers expanduser w0).1 = inr tt ∧
  handlers (loaded settings cloudwatch_handlers expanduser w0) =
    handlers_after settings cloudwatch_handlers (os_environ w0) (base_of w0)
      (default_handlers settings w0) ∧
  loggers (loaded settings cloudwatch_handlers expanduser w0) =
    loggers_after (os_environ w0) (default_loggers settings w0).
Proof.
  intros (lh & ll & dh & dl & t & Hh & Hl & Hne & Hdh & Hdl & Ht)%defaults_ok_shape.
  unfold loaded. rewrite (module_body_run w0 lh ll dh dl t) by done. simpl.
  rewrite handlers_with_dicts, loggers_with_dicts by done.
  unfold default_handlers, default_loggers, dict_at. by rewrite Hh, Hl, Hdh, Hdl.
Qed.
End load.

(** ** Facts about the entries *)

Lemma defaults_ok_task_logger settings w0 :
  defaults_ok (DEFAULT_LOGGING_CONFIG settings) (heap w0) = true →
  ∃ t, default_loggers settings w0 !! "airflow.task" = Some (VDict t).
Proof.
  intros (lh & ll & dh & dl & t & Hh & Hl & Hne & Hdh & Hdl & Ht)%defaults_ok_shape.
  exists t. unfold default_loggers, dict_at. by rewrite Hl, Hdl.
Qed.

Lemma task_logger_update_level level t :
  ∃ t', task_logger_update level (VDict t) = VDict t' ∧
        t' !! "level" = Some (VStr level) ∧
        ∀ key, key ≠ "level" → t' !! key = t !! key.
Proof.
  eexists. split; [reflexivity|]. unfold dict_update, dict_display. simpl. split.
  - apply lookup_union_Some_l. by rewrite lookup_insert_eq.
  - intros key Hkey. apply lookup_union_r. by rewrite lookup_insert_ne.
Qed.

Lemma logger_entry_parameters handler level :
  has_logger_parameters handler level false (logger_entry handler level).
Proof. eexists. split; [reflexivity|]. repeat split; reflexivity. Qed.

Ltac solve_elem_of_list :=
  repeat first [apply list_elem_of_here | apply list_elem_of_further].

Lemma ascii_lower_cases (c x : ascii) :
  (x = "t" ∨ x = "r" ∨ x = "u" ∨ x = "e")%char →
  ascii_lower c = x ↔ c = x ∨ c = ascii_upper x.
Proof.
  intros [->|[->|[->| ->]]];
    destruct c as [[] [] [] [] [] [] [] []]; vm_compute;
    (split; [intros [=]; auto|intros [[=]|[=]]; reflexivity]).
Qed.

Lemma lower_true_iff v : String.eqb (lower v) "true" = true ↔ is_true_ignoring_case v.
Proof.
  rewrite String.eqb_eq. unfold is_true_ignoring_case. split.
  - destruct v as [|c1 [|c2 [|c3 [|c4 [|c5 v]]]]]; simpl; try discriminate.
    intros [= H1 H2 H3 H4]. exists c1, c2, c3, c4. split; [done|].
    apply ascii_lower_cases in H1, H2, H3, H4; [done|auto..].
  - intros (c1 & c2 & c3 & c4 & -> & H1 & H2 & H3 & H4). simpl.
    rewrite (proj2 (ascii_lower_cases c1 "t" ltac:(auto))) by done.
    rewrite (proj2 (ascii_lower_cases c2 "r" ltac:(auto))) by done.
    rewrite (proj2 (ascii_lower_cases c3 "u" ltac:(auto))) by done.
    by rewrite (proj2 (ascii_lower_cases c4 "e" ltac:(auto))) by done.
Qed.

Lemma logs_enabled_var_true env SOURCE :
  logs_enabled_var env SOURCE = true ↔
  ∃ v, env !! ("MWAA__LOGGING__AIRFLOW_" ++ SOURCE ++ "_LOGS_ENABLED") = Some v ∧
       is_true_ignoring_case v.
Proof.
  unfold logs_enabled_var. rewrite lower_true_iff.
  destruct (env !! _) as [v|]; simpl.
  - split; [by exists v|]. by intros (? & [= <-] & ?).
  - split; [|by intros (? & [=] & _)].
    intros (c1 & c2 & c3 & c4 & [=] & _).
Qed.

Lemma subprocess_handler_keys cw name arn enabled :
  ∃ params,
    subprocess_handler cw name arn enabled = VDict params ∧
    params !! "log_group_arn" = Some (VStr arn) ∧
    params !! "enabled" = Some (VBool enabled) ∧
    params !! "stream_name_prefix" = Some (VStr name) ∧
    params !! "subprocess_name" = Some (VStr name) ∧
    ∀ name' params',
      subprocess_handler cw name' arn enabled = VDict params' →
      ∀ key, key ≠ "stream_name_prefix" → key ≠ "subprocess_name" →
             params !! key = params' !! key.
Proof.
  eexists. split; [reflexivity|]. split_and!; try reflexivity.
  intros name' params' [= <-] key Hprefix Hname.
  unfold dict_display. cbn [foldl fst snd].
  rewrite !lookup_insert. repeat case_decide; congruence.
Qed.

Lemma logger_entry_keys handler level :
  ∃ params,
    logger_entry handler level = VDict params ∧
    params !! "handlers" = Some (VList [VStr handler]) ∧
    params !! "level" = Some (VStr level) ∧
    params !! "propagate" = Some (VBool false) ∧
    ∀ handler' params',
      logger_entry handler' level = VDict params' →
      ∀ key, key ≠ "handlers" → params !! key = params' !! key.
Proof.
  eexists. split; [reflexivity|]. split_and!; try reflexivity.
  intros handler' params' [= <-] key Hkey.
  unfold dict_display. cbn [foldl fst snd].
  rewrite !lookup_insert. repeat case_decide; congruence.
Qed.

Lemma logger_rows_sources : Forall (λ r, r.2.1 ∈ sources) logger_rows.
Proof.
  unfold logger_rows, sources.
  repeat (apply Forall_cons; split; [simpl; solve_elem_of_list|]). apply Forall_nil_2.
Qed.

Lemma task_loggers_is_Some env dl k :
  is_Some (task_loggers env dl !! k) ↔ is_Some (dl !! k).
Proof.
  rewrite task_loggers_lookup. case_decide; [|done].
  destruct (log_group_arn_var env "TASK"); [|done]. apply fmap_is_Some.
Qed.

Lemma apply_rows_is_Some {B} env (entry : string → B → string → value) rows d k :
  NoDup rows.*1 →
  is_Some (apply_rows env entry rows d !! k) ↔
  is_Some (d !! k) ∨
  ∃ SRC b, (k, (SRC, b)) ∈ rows ∧ is_Some (log_group_arn_var env SRC).
Proof.
  intros Hnd. rewrite apply_rows_lookup by done.
  destruct (lookup_row k rows) as [[SRC b]|] eqn:Hrow.
  - destruct (log_group_arn_var env SRC) as [arn|] eqn:Harn; simpl.
    + split; [|by eauto]. intros _. right. exists SRC, b.
      split; [by apply lookup_row_Some|by rewrite Harn].
    + split; [by left|]. intros [?|(SRC' & b' & Hin & Hsome)]; [done|].
      apply (lookup_row_elem_of _ _ _ Hnd) in Hin. rewrite Hrow in Hin.
      injection Hin as <- <-. rewrite Harn in Hsome. by destruct Hsome.
  - split; [by left|]. intros [?|(SRC' & b' & Hin & _)]; [done|].
    apply (lookup_row_elem_of _ _ _ Hnd) in Hin. by rewrite Hrow in Hin.
Qed.

Lemma handler_rows_sources settings cw base k SRC mk :
  (k, (SRC, mk)) ∈ handler_rows settings cw base →
  SRC ∈ sources ∧ ∀ base', ∃ mk', (k, (SRC, mk')) ∈ handler_rows settings cw base'.
Proof.
  unfold handler_rows, sources. intros Hin.
  repeat (apply elem_of_cons in Hin as [[= -> -> ->]|Hin];
          [split; [solve_elem_of_list|intros base'; eexists; solve_elem_of_list]|]).
  by apply elem_of_nil in Hin.
Qed.

Lemma world_with_dicts w lh ll dh dl :
  heap w !! lh = Some (VDict dh) → heap w !! ll = Some (VDict dl) →
  w = with_dicts (os_environ w) (LOGGING_CONFIG w) (heap w) lh ll dh dl.
Proof.
  intros Hdh Hdl. destruct w as [env h c]. unfold with_dicts. simpl in *. f_equal.
  rewrite (insert_id h lh) by done. by rewrite insert_id.
Qed.

Section registrations.
Variable settings : airflow_local_settings.
Variable cloudwatch_handlers : cloudwatch_handlers_module.
Variable expanduser : gmap string string → string → string.

#[local] Abbreviation D := (DEFAULT_LOGGING_CONFIG settings).
#[local] Abbreviation load := (loaded settings cloudwatch_handlers expanduser).

Lemma handler_rows_parameters base :
  Forall (λ r, r.2.1 ∈ sources ∧
               ∀ arn enabled, has_handler_parameters arn enabled (r.2.2 arn enabled))
    (handler_rows settings cloudwatch_handlers base).
Proof.
  unfold handler_rows.
  repeat (apply Forall_cons; split;
    [split; [simpl; unfold sources; solve_elem_of_list
            |intros arn enabled; eexists _, _, _; split; [reflexivity|];
             repeat split; reflexivity]|]).
  apply Forall_nil_2.
Qed.

(** C3.  Every handler entry the module writes into the configuration
    mapping (an entry of the loaded handlers that the defaults did not
    already hold) is a dictionary with a class reference, a formatter name,
    a log group ARN and an enablement flag; the ARN and the flag are those
    of one of the five sources, whose ARN variable is set. *)
Theorem handler_entries_have_parameters w0 name entry :
  defaults_ok D (heap w0) = true →
  handlers (load w0) !! name = Some entry →
  default_handlers settings w0 !! name ≠ Some entry →
  ∃ SOURCE arn,
    SOURCE ∈ sources ∧
    log_group_arn_var (os_environ w0) SOURCE = Some arn ∧
    has_handler_parameters arn (logs_enabled_var (os_environ w0) SOURCE) entry.
Proof.
  intros Hok Hentry Hnew.
  destruct (module_body_spec settings cloudwatch_handlers expanduser w0 Hok) as (_ & Hh & _).
  rewrite Hh, handlers_after_lookup in Hentry.
  destruct (lookup_row name _) as [[SRC mk]|] eqn:Hrow; [|done].
  apply lookup_row_Some in Hrow.
  pose proof (handler_rows_parameters
    (expanduser (os_environ w0) (BASE_LOG_FOLDER settings))) as Hrows.
  rewrite Forall_forall in Hrows. apply Hrows in Hrow as [Hsrc Hparams]. simpl in *.
  destruct (log_group_arn_var (os_environ w0) SRC) as [arn|] eqn:Harn; simpl in Hentry; [|done].
  injection Hentry as <-. by exists SRC, arn.
Qed.

Lemma registrations_rows base :
  Forall (λ r, ∃ mk,
      lookup_row r.1.2 (handler_rows settings cloudwatch_handlers base) = Some (r.1.1, mk) ∧
      (r = ("TASK", "task", "airflow.task") ∨
       r.2 ≠ "airflow.task" ∧ lookup_row r.2 logger_rows = Some (r.1.1, r.1.2)))
    registrations.
Proof.
  unfold registrations.
  repeat (apply Forall_cons; split;
    [eexists; split; [reflexivity|]; first [by left|right; split; [discriminate|reflexivity]]|]).
  apply Forall_nil_2.
Qed.

(** What the module body makes of a registration, by the presence of
    the log group ARN of its source. *)
Lemma registration_spec w0 SOURCE handler logger :
  defaults_ok D (heap w0) = true →
  (SOURCE, handler, logger) ∈ registrations →
  match log_group_arn_var (os_environ w0) SOURCE with
  | Some arn =>
      (∃ entry, handlers (load w0) !! handler = Some entry ∧
         has_handler_parameters arn (logs_enabled_var (os_environ w0) SOURCE) entry) ∧
      (∃ params, loggers (load w0) !! logger = Some (VDict params) ∧
         params !! "level" = Some (VStr (log_level_var (os_environ w0) SOURCE)))
  | None =>
      handlers (load w0) !! handler = default_handlers settings w0 !! handler ∧
      loggers (load w0) !! logger = default_loggers settings w0 !! logger
  end.
Proof.
  intros Hok Hreg.
  destruct (module_body_spec settings cloudwatch_handlers expanduser w0 Hok) as (_ & Hh & Hl).
  destruct (defaults_ok_task_logger settings w0 Hok) as [t Ht].
  set (base := expanduser (os_environ w0) (BASE_LOG_FOLDER settings)) in *.
  pose proof (registrations_rows base) as Hrows. rewrite Forall_forall in Hrows.
  destruct (Hrows _ Hreg) as (mk & Hhrow & Hlrow). cbn [fst snd] in Hhrow, Hlrow.
  pose proof (handler_rows_parameters base) as Hparams. rewrite Forall_forall in Hparams.
  destruct (Hparams _ (lookup_row_Some _ _ _ Hhrow)) as [_ Hmk]. cbn [fst snd] in Hmk.
  rewrite Hh, Hl, handlers_after_lookup, loggers_after_lookup, task_loggers_lookup, Hhrow.
  destruct Hlrow as [Htask|[Hne Hlrow]].
  - injection Htask as -> -> ->. simpl.
    destruct (log_group_arn_var (os_environ w0) "TASK") as [arn|]; simpl; [|done].
    split; [by eexists|]. rewrite Ht.
    destruct (task_logger_update_level (log_level_var (os_environ w0) "TASK") t)
      as (t' & Heq & Hlevel & _).
    exists t'. split; [|done]. by rewrite <- Heq.
  - rewrite Hlrow, decide_False by done.
    destruct (log_group_arn_var (os_environ w0) SOURCE) as [arn|]; simpl; [|done].
    split; [by eexists|].
    destruct (logger_entry_parameters handler (log_level_var (os_environ w0) SOURCE))
      as (params & -> & _ & Hlevel & _).
    by exists params.
Qed.

(** C1, amended.  For each of the five sources, every handler/logger pair
    the source drives (for worker, scheduler and webserver also the
    [_requirements] pair, which has no variables of its own) is written if
    and only if [MWAA__LOGGING__AIRFLOW_<SOURCE>_LOG_GROUP_ARN] is present:
    when it is, the handler entry carries that ARN and the logger entry
    carries the level of the source; when it is absent, the handler and the
    logger of that name are what [DEFAULT_LOGGING_CONFIG] had. *)
Theorem entries_added_iff_log_group_arn w0 SOURCE handler logger :
  defaults_ok D (heap w0) = true →
  (SOURCE, handler, logger) ∈ registrations →
  match log_group_arn_var (os_environ w0) SOURCE with
  | Some arn =>
      (∃ entry, handlers (load w0) !! handler = Some entry ∧
         has_handler_parameters arn (logs_enabled_var (os_environ w0) SOURCE) entry) ∧
      (∃ params, loggers (load w0) !! logger = Some (VDict params) ∧
         params !! "level" = Some (VStr (log_level_var (os_environ w0) SOURCE)))
  | None =>
      handlers (load w0) !! handler = default_handlers settings w0 !! handler ∧
      loggers (load w0) !! logger = default_loggers settings w0 !! logger
  end.
Proof. apply registration_spec. Qed.

(** C5.  For every source whose log group ARN is set, the enablement flag
    stored in each handler entry the source drives is true if and only if
    [MWAA__LOGGING__AIRFLOW_<SOURCE>_LOGS_ENABLED] is present and equals
    ["true"] when case is ignored; when the variable is absent the flag is
    false. *)
Theorem enabled_flag_iff_logs_enabled w0 SOURCE handler logger arn :
  defaults_ok D (heap w0) = true →
  (SOURCE, handler, logger) ∈ registrations →
  log_group_arn_var (os_environ w0) SOURCE = Some arn →
  ∃ params enabled,
    handlers (load w0) !! handler = Some (VDict params) ∧
    params !! "enabled" = Some (VBool enabled) ∧
    (enabled = true ↔
     ∃ v, os_environ w0 !! ("MWAA__LOGGING__AIRFLOW_" ++ SOURCE ++ "_LOGS_ENABLED") = Some v ∧
          is_true_ignoring_case v) ∧
    (os_environ w0 !! ("MWAA__LOGGING__AIRFLOW_" ++ SOURCE ++ "_LOGS_ENABLED") = None →
     enabled = false).
Proof.
  intros Hok Hreg Harn.
  pose proof (registration_spec w0 SOURCE handler logger Hok Hreg) as H.
  rewrite Harn in H. destruct H as [(entry & Hentry & params & cls & fmt & -> & _ & _ & _ & Hen) _].
  exists params, (logs_enabled_var (os_environ w0) SOURCE).
  split_and!; [done|done|apply logs_enabled_var_true|].
  intros Hnone. unfold logs_enabled_var. by rewrite Hnone.
Qed.

(** C10.  Every logger entry the module creates ([airflow.processor_manager],
    [airflow.processor] and the [mwaa.<subprocess>] loggers, when the ARN of
    their source is set) has its propagation flag false and attaches exactly
    one handler, the one registered with it, which the same run wrote with
    that ARN. *)
Theorem new_loggers_do_not_propagate w0 logger SOURCE handler arn :
  defaults_ok D (heap w0) = true →
  (logger, (SOURCE, handler)) ∈ logger_rows →
  log_group_arn_var (os_environ w0) SOURCE = Some arn →
  ∃ params hparams,
    loggers (load w0) !! logger = Some (VDict params) ∧
    params !! "propagate" = Some (VBool false) ∧
    params !! "handlers" = Some (VList [VStr handler]) ∧
    handlers (load w0) !! handler = Some (VDict hparams) ∧
    hparams !! "log_group_arn" = Some (VStr arn).
Proof.
  intros Hok Hrow Harn.
  destruct (module_body_spec settings cloudwatch_handlers expanduser w0 Hok) as (_ & Hh & Hl).
  set (base := expanduser (os_environ w0) (BASE_LOG_FOLDER settings)) in *.
  assert (Hreg : (SOURCE, handler, logger) ∈ registrations).
  { unfold logger_rows in Hrow. unfold registrations.
    repeat (apply elem_of_cons in Hrow as [[= -> -> ->]|Hrow]; [solve_elem_of_list|]).
    by apply elem_of_nil in Hrow. }
  pose proof (registration_spec w0 SOURCE handler logger Hok Hreg) as H.
  rewrite Harn in H.
  destruct H as [(entry & Hentry & hparams & cls & fmt & -> & _ & _ & Hharn & _) _].
  rewrite Hl, loggers_after_lookup.
  rewrite (lookup_row_elem_of _ _ _ logger_rows_NoDup Hrow), Harn. simpl.
  destruct (logger_entry_parameters handler (log_level_var (os_environ w0) SOURCE))
    as (params & -> & Hhandlers & _ & Hprop).
  by exists params, hparams.
Qed.
(** C9.  For each component among worker, scheduler and webserver, the one
    set of variables of the component drives two registrations:
    [mwaa_<component>] and [mwaa_<component>_requirements] get the same log
    group ARN, enablement flag and level, and differ only in the handler
    name, the logger name, the stream-name prefix and the subprocess name;
    when the ARN is absent neither pair is written. *)
Theorem component_drives_two_registrations w0 comp COMP :
  defaults_ok D (heap w0) = true →
  (comp, COMP) ∈ components →
  match log_group_arn_var (os_environ w0) COMP with
  | Some arn =>
      ∃ h1 h2 l1 l2,
        handlers (load w0) !! ("mwaa_" ++ comp) = Some (VDict h1) ∧
        handlers (load w0) !! ("mwaa_" ++ comp ++ "_requirements") = Some (VDict h2) ∧
        loggers (load w0) !! ("mwaa." ++ comp) = Some (VDict l1) ∧
        loggers (load w0) !! ("mwaa." ++ comp ++ "_requirements") = Some (VDict l2) ∧
        h1 !! "log_group_arn" = Some (VStr arn) ∧
        h2 !! "log_group_arn" = Some (VStr arn) ∧
        h1 !! "enabled" = Some (VBool (logs_enabled_var (os_environ w0) COMP)) ∧
        h2 !! "enabled" = Some (VBool (logs_enabled_var (os_environ w0) COMP)) ∧
        l1 !! "level" = Some (VStr (log_level_var (os_environ w0) COMP)) ∧
        l2 !! "level" = Some (VStr (log_level_var (os_environ w0) COMP)) ∧
        (∀ key, key ≠ "stream_name_prefix" → key ≠ "subprocess_name" →
                h1 !! key = h2 !! key) ∧
        h1 !! "stream_name_prefix" = Some (VStr comp) ∧
        h2 !! "stream_name_prefix" = Some (VStr (comp ++ "_requirements")) ∧
        h1 !! "subprocess_name" = Some (VStr comp) ∧
        h2 !! "subprocess_name" = Some (VStr (comp ++ "_requirements")) ∧
        (∀ key, key ≠ "handlers" → l1 !! key = l2 !! key) ∧
        l1 !! "handlers" = Some (VList [VStr ("mwaa_" ++ comp)]) ∧
        l2 !! "handlers" = Some (VList [VStr ("mwaa_" ++ comp ++ "_requirements")])
  | None =>
      handlers (load w0) !! ("mwaa_" ++ comp) =
        default_handlers settings w0 !! ("mwaa_" ++ comp) ∧
      handlers (load w0) !! ("mwaa_" ++ comp ++ "_requirements") =
        default_handlers settings w0 !! ("mwaa_" ++ comp ++ "_requirements") ∧
      loggers (load w0) !! ("mwaa." ++ comp) =
        default_loggers settings w0 !! ("mwaa." ++ comp) ∧
      loggers (load w0) !! ("mwaa." ++ comp ++ "_requirements") =
        default_loggers settings w0 !! ("mwaa." ++ comp ++ "_requirements")
  end.
Proof.
  intros Hok Hcomp.
  destruct (module_body_spec settings cloudwatch_handlers expanduser w0 Hok) as (_ & Hh & Hl).
  set (base := expanduser (os_environ w0) (BASE_LOG_FOLDER settings)) in *.
  rewrite Hh, Hl. rewrite !handlers_after_lookup, !loggers_after_lookup, !task_loggers_lookup.
  assert (Hrows :
    lookup_row ("mwaa_" ++ comp) (handler_rows settings cloudwatch_handlers base) =
      Some (COMP, subprocess_handler cloudwatch_handlers comp) ∧
    lookup_row ("mwaa_" ++ comp ++ "_requirements")
      (handler_rows settings cloudwatch_handlers base) =
      Some (COMP, subprocess_handler cloudwatch_handlers (comp ++ "_requirements")) ∧
    lookup_row ("mwaa." ++ comp) logger_rows = Some (COMP, "mwaa_" ++ comp) ∧
    lookup_row ("mwaa." ++ comp ++ "_requirements") logger_rows =
      Some (COMP, "mwaa_" ++ comp ++ "_requirements") ∧
    "mwaa." ++ comp ≠ "airflow.task" ∧ "mwaa." ++ comp ++ "_requirements" ≠ "airflow.task").
  { unfold components in Hcomp.
    repeat (apply elem_of_cons in Hcomp as [[= -> ->]|Hcomp];
            [split_and!; (reflexivity || discriminate)|]).
    by apply elem_of_nil in Hcomp. }
  destruct Hrows as (-> & -> & -> & -> & Hne1 & Hne2).
  rewrite !decide_False by done.
  destruct (log_group_arn_var (os_environ w0) COMP) as [arn|]; simpl; [|done].
  destruct (subprocess_handler_keys cloudwatch_handlers comp arn
              (logs_enabled_var (os_environ w0) COMP))
    as (h1 & Hh1 & Harn1 & Hen1 & Hpre1 & Hsub1 & Hsame).
  destruct (subprocess_handler_keys cloudwatch_handlers (comp ++ "_requirements") arn
              (logs_enabled_var (os_environ w0) COMP))
    as (h2 & Hh2 & Harn2 & Hen2 & Hpre2 & Hsub2 & _).
  destruct (logger_entry_keys ("mwaa_" ++ comp) (log_level_var (os_environ w0) COMP))
    as (l1 & Hl1 & Hhs1 & Hlvl1 & _ & Hlsame).
  destruct (logger_entry_keys ("mwaa_" ++ comp ++ "_requirements")
              (log_level_var (os_environ w0) COMP))
    as (l2 & Hl2 & Hhs2 & Hlvl2 & _ & _).
  exists h1, h2, l1, l2. rewrite Hh1, Hh2, Hl1, Hl2.
  split_and!; try done.
  - by apply (Hsame _ _ Hh2).
  - by apply (Hlsame _ _ Hl2).
Qed.


(** C2, amended.  The names added depend on the environment through the
    presence tests only: from the same defaults, two environments in which
    the same [MWAA__LOGGING__AIRFLOW_<SOURCE>_LOG_GROUP_ARN] variables are
    present give the same set of handler names and the same set of logger
    names. *)
Theorem names_fixed_by_presence w1 w2 :
  defaults_ok D (heap w1) = true →
  heap w2 = heap w1 →
  (∀ SOURCE, SOURCE ∈ sources →
     is_Some (log_group_arn_var (os_environ w1) SOURCE) ↔
     is_Some (log_group_arn_var (os_environ w2) SOURCE)) →
  dom (handlers (load w1)) = dom (handlers (load w2)) ∧
  dom (loggers (load w1)) = dom (loggers (load w2)).
Proof.
  intros Hok1 Hheap Hpresent.
  assert (Hok2 : defaults_ok D (heap w2) = true) by by rewrite Hheap.
  destruct (module_body_spec settings cloudwatch_handlers expanduser w1 Hok1) as (_ & Hh1 & Hl1).
  destruct (module_body_spec settings cloudwatch_handlers expanduser w2 Hok2) as (_ & Hh2 & Hl2).
  rewrite Hh1, Hh2, Hl1, Hl2. unfold default_handlers, default_loggers. rewrite Hheap.
  assert (Hsome : ∀ SRC, SRC ∈ sources →
            is_Some (log_group_arn_var (os_environ w1) SRC) →
            is_Some (log_group_arn_var (os_environ w2) SRC)) by (intros; by apply Hpresent).
  assert (Hsome' : ∀ SRC, SRC ∈ sources →
            is_Some (log_group_arn_var (os_environ w2) SRC) →
            is_Some (log_group_arn_var (os_environ w1) SRC)) by (intros; by apply Hpresent).
  split; apply set_eq; intros k; rewrite !elem_of_dom.
  - rewrite !handlers_after_rows, !apply_rows_is_Some by apply handler_rows_NoDup.
    split; (intros [?|(SRC & mk & Hin & Harn)]; [by left|right]);
      apply handler_rows_sources in Hin as [Hsrc Hrows].
    + destruct (Hrows (expanduser (os_environ w2) (BASE_LOG_FOLDER settings))) as [mk' Hin'].
      exists SRC, mk'. split; [done|]. by apply Hsome.
    + destruct (Hrows (expanduser (os_environ w1) (BASE_LOG_FOLDER settings))) as [mk' Hin'].
      exists SRC, mk'. split; [done|]. by apply Hsome'.
  - rewrite !loggers_after_rows, !apply_rows_is_Some by apply logger_rows_NoDup.
    rewrite !task_loggers_is_Some.
    pose proof logger_rows_sources as Hsrc. rewrite Forall_forall in Hsrc.
    split; (intros [?|(SRC & hn & Hin & Harn)]; [by left|right]);
      exists SRC, hn; (split; [done|]); apply Hsrc in Hin; simpl in Hin.
    + by apply Hsome.
    + by apply Hsome'.
Qed.

(** C8.  When the ARN of [dag_processing] is present,
    [_configure_dag_processing_logging] returns and registers exactly two
    handler/logger pairs, [processor_manager] and [processor]: both handlers
    carry that ARN and the enablement flag of [dag_processing], both loggers
    its level, and no other handler or logger name changes. *)
Theorem dag_processing_registers_two_pairs w arn :
  defaults_ok (LOGGING_CONFIG w) (heap w) = true →
  log_group_arn_var (os_environ w) "DAG_PROCESSING" = Some arn →
  let r := _configure_dag_processing_logging settings cloudwatch_handlers w in
  r.1 = inr tt ∧
  (∀ handler logger,
     (handler, logger) ∈ [("processor_manager", "airflow.processor_manager");
                          ("processor", "airflow.processor")] →
     (∃ entry, handlers r.2 !! handler = Some entry ∧
        has_handler_parameters arn (logs_enabled_var (os_environ w) "DAG_PROCESSING") entry) ∧
     (∃ entry, loggers r.2 !! logger = Some entry ∧
        has_logger_parameters handler (log_level_var (os_environ w) "DAG_PROCESSING")
          false entry)) ∧
  (∀ name, name ≠ "processor_manager" → name ≠ "processor" →
           handlers r.2 !! name = handlers w !! name) ∧
  (∀ name, name ≠ "airflow.processor_manager" → name ≠ "airflow.processor" →
           loggers r.2 !! name = loggers w !! name).
Proof.
  intros (lh & ll & dh & dl & t & Hh & Hl & Hne & Hdh & Hdl & Ht)%defaults_ok_shape Harn.
  intros r.
  assert (Hr : r = (inr tt,
    with_dicts (os_environ w) (LOGGING_CONFIG w) (heap w) lh ll
      (dag_processing_handlers settings cloudwatch_handlers (os_environ w) dh)
      (dag_processing_loggers (os_environ w) dl))).
  { etransitivity; [|by apply run_configure_dag_processing_logging].
    unfold r. f_equal. by apply world_with_dicts. }
  rewrite Hr. clear r Hr. cbn [fst snd].
  rewrite handlers_with_dicts, loggers_with_dicts by done.
  assert (Hhw : handlers w = dh) by (unfold handlers, dict_at; by rewrite Hh, Hdh).
  assert (Hlw : loggers w = dl) by (unfold loggers, dict_at; by rewrite Hl, Hdl).
  rewrite Hhw, Hlw. unfold dag_processing_handlers, dag_processing_loggers. rewrite Harn.
  split_and!.
  - done.
  - intros handler logger Hin.
    repeat (apply elem_of_cons in Hin as [[= -> ->]|Hin];
      [rewrite !lookup_write_if; simpl; split;
        [eexists; split; [reflexivity|]; eexists _, _, _; split; [reflexivity|];
         split_and!; reflexivity
        |eexists; split; [reflexivity|]; apply logger_entry_parameters]|]).
    by apply elem_of_nil in Hin.
  - intros name Hn1 Hn2. rewrite !lookup_write_if. by rewrite !decide_False by done.
  - intros name Hn1 Hn2. rewrite !lookup_write_if. by rewrite !decide_False by done.
Qed.
End registrations.

(** ** The setup calls keep the bindings *)

Lemma keeps_mret {A} (x : A) : keeps_bindings (mret x : M A).
Proof. by intros w. Qed.

Lemma keeps_bind {A B} (m : M A) (f : A → M B) :
  keeps_bindings m → (∀ x, keeps_bindings (f x)) → keeps_bindings (m ≫= f).
Proof.
  intros Hm Hf w. unfold mbind, M_bind. specialize (Hm w).
  destruct (m w) as [[e|x] w']; [done|]. simpl in Hm.
  destruct (Hf x w') as (Henv & Hc & Hdom), Hm as (Henv' & Hc' & Hdom').
  split_and!; congruence.
Qed.

Lemma keeps_os_environ_get key : keeps_bindings (os_environ_get key).
Proof. by intros w. Qed.

Lemma keeps_os_environ_get_default key default :
  keeps_bindings (os_environ_get_default key default).
Proof. by intros w. Qed.

Lemma keeps_os_path_expanduser expanduser path :
  keeps_bindings (os_path_expanduser expanduser path).
Proof. by intros w. Qed.

Lemma keeps_LOGGING_CONFIG_getitem key : keeps_bindings (LOGGING_CONFIG_getitem key).
Proof. intros w. unfold LOGGING_CONFIG_getitem. by destruct (LOGGING_CONFIG w !! key). Qed.

Lemma keeps_setitem l key v : keeps_bindings (setitem l key v).
Proof.
  intros w. unfold setitem.
  destruct (heap w !! l) as [[| | | | |d]|] eqn:Hl; try done. simpl.
  split_and!; [done..|]. by apply dom_insert_lookup_L.
Qed.

Lemma keeps_getitem_update l key other : keeps_bindings (getitem_update l key other).
Proof.
  intros w. unfold getitem_update.
  destruct (heap w !! l) as [[| | | | |d]|] eqn:Hl; try done.
  destruct (d !! key) as [[| | | | |t]|]; try done. simpl.
  split_and!; [done..|]. by apply dom_insert_lookup_L.
Qed.

Lemma keeps_for_each {A} (xs : list A) (body : A → M unit) :
  (∀ x, keeps_bindings (body x)) → keeps_bindings (for_each xs body).
Proof.
  intros Hbody. induction xs as [|x xs IH]; simpl.
  - apply keeps_mret.
  - apply keeps_bind; [apply Hbody|by intros _].
Qed.

Ltac keeps :=
  repeat first
    [ apply keeps_mret | apply keeps_os_environ_get | apply keeps_os_environ_get_default
    | apply keeps_os_path_expanduser | apply keeps_LOGGING_CONFIG_getitem
    | apply keeps_setitem | apply keeps_getitem_update
    | apply keeps_bind; [|intros ?] ].

Lemma keeps_get_mwaa_logging_env_vars source :
  keeps_bindings (_get_mwaa_logging_env_vars source).
Proof. unfold _get_mwaa_logging_env_vars. keeps. Qed.

Section sequence.
Variable settings : airflow_local_settings.
Variable cloudwatch_handlers : cloudwatch_handlers_module.
Variable expanduser : gmap string string → string → string.

Lemma keeps_configure_task_logging :
  keeps_bindings (_configure_task_logging settings cloudwatch_handlers expanduser).
Proof.
  unfold _configure_task_logging.
  apply keeps_bind; [apply keeps_get_mwaa_logging_env_vars|].
  intros [[[arn|] level] enabled]; keeps.
Qed.

Lemma keeps_configure_dag_processing_logging :
  keeps_bindings (_configure_dag_processing_logging settings cloudwatch_handlers).
Proof.
  unfold _configure_dag_processing_logging.
  apply keeps_bind; [apply keeps_get_mwaa_logging_env_vars|].
  intros [[[arn|] level] enabled]; keeps.
Qed.

Lemma keeps_configure_subprocesses_logging name arn level enabled :
  keeps_bindings (_configure_subprocesses_logging cloudwatch_handlers name arn level enabled).
Proof. unfold _configure_subprocesses_logging. destruct arn; keeps. Qed.

Lemma keeps_configure :
  keeps_bindings (_configure settings cloudwatch_handlers expanduser).
Proof.
  unfold _configure.
  apply keeps_bind; [apply keeps_configure_task_logging|intros _].
  apply keeps_bind; [apply keeps_configure_dag_processing_logging|intros _].
  apply keeps_for_each. intros comp.
  apply keeps_bind; [apply keeps_get_mwaa_logging_env_vars|].
  intros [[arn level] enabled].
  apply keeps_bind; [|intros _]; apply keeps_configure_subprocesses_logging.
Qed.

Lemma bind_agree {A B} env (m : M A) (f g : A → M B) w :
  os_environ w = env → keeps_bindings m →
  (∀ x w', os_environ w' = env → f x w' = g x w') →
  (m ≫= f) w = (m ≫= g) w.
Proof.
  intros Hw Hm Hfg. unfold mbind, M_bind. destruct (Hm w) as (Henv & _).
  destruct (m w) as [[e|x] w']; [done|]. apply Hfg. simpl in Henv. congruence.
Qed.

Lemma bind_assoc_run {A B C} (m : M A) (f : A → M B) (g : B → M C) w :
  ((m ≫= f) ≫= g) w = (m ≫= λ x, f x ≫= g) w.
Proof. unfold mbind, M_bind. by destruct (m w) as [[e|x] w']. Qed.

Lemma bind_mret_run (m : M unit) w : (m ;; mret tt) w = m w.
Proof. unfold mbind, M_bind. by destruct (m w) as [[e|[]] w']. Qed.

(** One iteration of the loop of [_configure], with the values read from
    the environment spelled out. *)
Lemma component_agree {B} env comp (k : unit → M B) (rest : M B) w :
  os_environ w = env →
  (∀ w', os_environ w' = env → k tt w' = rest w') →
  (('(log_group_arn, log_level, logging_enabled) ← _get_mwaa_logging_env_vars comp;
    _configure_subprocesses_logging cloudwatch_handlers comp
      log_group_arn log_level logging_enabled ;;
    _configure_subprocesses_logging cloudwatch_handlers (comp ++ "_requirements")
      log_group_arn log_level logging_enabled) ≫= k) w =
  (_configure_subprocesses_logging cloudwatch_handlers comp
     (log_group_arn_var env (upper comp)) (log_level_var env (upper comp))
     (logs_enabled_var env (upper comp)) ;;
   _configure_subprocesses_logging cloudwatch_handlers (comp ++ "_requirements")
     (log_group_arn_var env (upper comp)) (log_level_var env (upper comp))
     (logs_enabled_var env (upper comp)) ;;
   rest) w.
Proof.
  intros Hw Hk.
  etransitivity; [apply bind_assoc_run|].
  etransitivity; [eapply bind_run; apply run_env_vars|].
  rewrite Hw. cbv beta iota.
  etransitivity; [apply bind_assoc_run|].
  eapply bind_agree; [done|apply keeps_configure_subprocesses_logging|].
  intros [] w1 Hw1.
  eapply bind_agree; [done|apply keeps_configure_subprocesses_logging|].
  by intros [] w2 Hw2; apply Hk.
Qed.

Lemma component_agree_last env comp w :
  os_environ w = env →
  (('(log_group_arn, log_level, logging_enabled) ← _get_mwaa_logging_env_vars comp;
    _configure_subprocesses_logging cloudwatch_handlers comp
      log_group_arn log_level logging_enabled ;;
    _configure_subprocesses_logging cloudwatch_handlers (comp ++ "_requirements")
      log_group_arn log_level logging_enabled) ;; mret tt) w =
  (_configure_subprocesses_logging cloudwatch_handlers comp
     (log_group_arn_var env (upper comp)) (log_level_var env (upper comp))
     (logs_enabled_var env (upper comp)) ;;
   _configure_subprocesses_logging cloudwatch_handlers (comp ++ "_requirements")
     (log_group_arn_var env (upper comp)) (log_level_var env (upper comp))
     (logs_enabled_var env (upper comp))) w.
Proof.
  intros Hw.
  etransitivity; [apply bind_mret_run|].
  etransitivity; [eapply bind_run; apply run_env_vars|].
  by rewrite Hw.
Qed.

(** C6.  The module body is one fixed sequence of setup calls, each made
    once: the binding of [LOGGING_CONFIG], task logging, DAG-processing
    logging, then for worker, scheduler and webserver in that order the
    component followed by its [_requirements] variant, with nothing after
    it.  The calls mutate in place: [LOGGING_CONFIG] stays bound to the keys
    and objects of [DEFAULT_LOGGING_CONFIG] and no top-level object is
    created or dropped. *)
Theorem module_body_is_fixed_sequence w :
  let env := os_environ w in
  let subprocesses name COMP :=
    _configure_subprocesses_logging cloudwatch_handlers name
      (log_group_arn_var env COMP) (log_level_var env COMP) (logs_enabled_var env COMP) in
  module_body settings cloudwatch_handlers expanduser w =
    (LOGGING_CONFIG_assign (DEFAULT_LOGGING_CONFIG settings) ;;
     _configure_task_logging settings cloudwatch_handlers expanduser ;;
     _configure_dag_processing_logging settings cloudwatch_handlers ;;
     subprocesses "worker" "WORKER" ;;
     subprocesses "worker_requirements" "WORKER" ;;
     subprocesses "scheduler" "SCHEDULER" ;;
     subprocesses "scheduler_requirements" "SCHEDULER" ;;
     subprocesses "webserver" "WEBSERVER" ;;
     subprocesses "webserver_requirements" "WEBSERVER") w ∧
  LOGGING_CONFIG (loaded settings cloudwatch_handlers expanduser w) =
    DEFAULT_LOGGING_CONFIG settings ∧
  dom (heap (loaded settings cloudwatch_handlers expanduser w)) = dom (heap w).
Proof.
  intros env subprocesses. split.
  - unfold module_body, _configure, for_each.
    etransitivity; [eapply bind_run; reflexivity|].
    symmetry. etransitivity; [eapply bind_run; reflexivity|]. symmetry.
    eapply (bind_agree env); [done|apply keeps_configure_task_logging|]. intros [] w2 Hw2.
    eapply bind_agree; [done|apply keeps_configure_dag_processing_logging|].
    intros [] w3 Hw3.
    apply (component_agree env); [done|]. intros w4 Hw4.
    apply (component_agree env); [done|]. intros w5 Hw5.
    by apply (component_agree_last env).
  - destruct (keeps_configure (set_LOGGING_CONFIG (DEFAULT_LOGGING_CONFIG settings) w))
      as (_ & Hc & Hdom).
    by split.
Qed.
End sequence.

(** ** Running the module again *)

Lemma same_variables_vars env1 env2 SOURCE :
  same_variables env1 env2 → SOURCE ∈ sources →
  log_group_arn_var env1 SOURCE = log_group_arn_var env2 SOURCE ∧
  log_level_var env1 SOURCE = log_level_var env2 SOURCE ∧
  logs_enabled_var env1 SOURCE = logs_enabled_var env2 SOURCE.
Proof.
  intros Hsame Hsrc. unfold log_group_arn_var, log_level_var, logs_enabled_var.
  rewrite (Hsame SOURCE "_LOG_GROUP_ARN" Hsrc) by solve_elem_of_list.
  rewrite (Hsame SOURCE "_LOG_LEVEL" Hsrc) by solve_elem_of_list.
  by rewrite (Hsame SOURCE "_LOGS_ENABLED" Hsrc) by solve_elem_of_list.
Qed.

Lemma task_logger_update_idemp level entry :
  task_logger_update level (task_logger_update level entry) = task_logger_update level entry.
Proof.
  destruct entry as [| | | | |t]; try done. simpl. unfold dict_update.
  by rewrite (assoc_L (∪)), (idemp_L (∪)).
Qed.

Lemma task_loggers_idemp env dl :
  task_loggers env (task_loggers env dl) = task_loggers env dl.
Proof.
  apply map_eq. intros k. rewrite !task_loggers_lookup.
  case_decide; [|done]. destruct (log_group_arn_var env "TASK"); [|done].
  rewrite <- option_fmap_compose. apply option_fmap_ext. intros v. simpl.
  apply task_logger_update_idemp.
Qed.

Section purity.
Variable settings : airflow_local_settings.
Variable cloudwatch_handlers : cloudwatch_handlers_module.

Lemma handlers_after_idemp env base dh :
  handlers_after settings cloudwatch_handlers env base
    (handlers_after settings cloudwatch_handlers env base dh) =
  handlers_after settings cloudwatch_handlers env base dh.
Proof.
  apply map_eq. intros k. rewrite !handlers_after_lookup.
  destruct (lookup_row k _) as [[SRC mk]|]; [|done].
  by destruct (log_group_arn_var env SRC).
Qed.

Lemma loggers_after_idemp env dl :
  loggers_after env (loggers_after env dl) = loggers_after env dl.
Proof.
  apply map_eq. intros k. rewrite !loggers_after_lookup.
  destruct (lookup_row k logger_rows) as [[SRC hn]|] eqn:Hrow.
  - destruct (log_group_arn_var env SRC) eqn:Harn; simpl; [done|].
    assert (k ≠ "airflow.task") as Hk.
    { intros ->. revert Hrow. unfold logger_rows, lookup_row.
      by repeat (case_decide; [discriminate|]). }
    rewrite !(task_loggers_lookup env), !decide_False by done.
    rewrite loggers_after_lookup, Hrow, Harn. simpl.
    by rewrite task_loggers_lookup, decide_False.
  - assert (Hl : loggers_after env dl !! k = task_loggers env dl !! k)
      by (by rewrite loggers_after_lookup, Hrow).
    transitivity (task_loggers env (task_loggers env dl) !! k);
      [|by rewrite task_loggers_idemp].
    by rewrite (task_loggers_lookup env (loggers_after env dl)),
      (task_loggers_lookup env (task_loggers env dl)), Hl.
Qed.

Lemma handlers_after_same env1 env2 base dh :
  same_variables env1 env2 →
  handlers_after settings cloudwatch_handlers env1 base dh =
  handlers_after settings cloudwatch_handlers env2 base dh.
Proof.
  intros Hsame. apply map_eq. intros k. rewrite !handlers_after_lookup.
  destruct (lookup_row k _) as [[SRC mk]|] eqn:Hrow; [|done].
  apply lookup_row_Some, handler_rows_sources in Hrow as [Hsrc _].
  by destruct (same_variables_vars env1 env2 SRC Hsame Hsrc) as (-> & _ & ->).
Qed.

Lemma loggers_after_same env1 env2 dl :
  same_variables env1 env2 → loggers_after env1 dl = loggers_after env2 dl.
Proof.
  intros Hsame. apply map_eq. intros k.
  rewrite !loggers_after_lookup, !task_loggers_lookup.
  destruct (same_variables_vars env1 env2 "TASK" Hsame) as (-> & -> & _);
    [solve_elem_of_list|].
  destruct (lookup_row k logger_rows) as [[SRC hn]|] eqn:Hrow; [|done].
  pose proof logger_rows_sources as Hsrc. rewrite Forall_forall in Hsrc.
  apply lookup_row_Some, Hsrc in Hrow. simpl in Hrow.
  by destruct (same_variables_vars env1 env2 SRC Hsame Hrow) as (-> & -> & _).
Qed.

Lemma loggers_after_task_logger env dl t :
  dl !! "airflow.task" = Some (VDict t) →
  ∃ t', loggers_after env dl !! "airflow.task" = Some (VDict t').
Proof.
  intros Ht. rewrite loggers_after_lookup, task_loggers_lookup, Ht.
  change (lookup_row "airflow.task" logger_rows) with (@None (string * string)).
  rewrite decide_True by done. destruct (log_group_arn_var env "TASK"); by eexists.
Qed.

Variable expanduser : gmap string string → string → string.

#[local] Abbreviation D := (DEFAULT_LOGGING_CONFIG settings).
#[local] Abbreviation load := (loaded settings cloudwatch_handlers expanduser).
#[local] Abbreviation body := (module_body settings cloudwatch_handlers expanduser).

(** C7.  The configuration is a function of the environment: two loads
    from the same defaults, under environments that agree on the variables
    the module reads (and on the expanded base log folder), end the same way
    with the same objects and the same [LOGGING_CONFIG]; and running the
    module body, or [_configure], again in the world a load has left returns
    that very world. *)
Theorem configuration_is_function_of_environment w1 w2 :
  defaults_ok D (heap w1) = true →
  heap w2 = heap w1 →
  same_variables (os_environ w1) (os_environ w2) →
  expanduser (os_environ w1) (BASE_LOG_FOLDER settings) =
    expanduser (os_environ w2) (BASE_LOG_FOLDER settings) →
  ((body w1).1 = (body w2).1 ∧
   heap (load w1) = heap (load w2) ∧
   LOGGING_CONFIG (load w1) = LOGGING_CONFIG (load w2)) ∧
  body (load w1) = (inr tt, load w1) ∧
  _configure settings cloudwatch_handlers expanduser (load w1) = (inr tt, load w1).
Proof.
  intros Hok Hheap Hsame Hbase.
  destruct (defaults_ok_shape _ _ Hok) as (lh & ll & dh & dl & t & Hh & Hl & Hne & Hdh & Hdl & Ht).
  pose proof (module_body_run settings cloudwatch_handlers expanduser w1 lh ll dh dl t
                Hh Hl Hne Hdh Hdl Ht) as Hrun1.
  rewrite <- Hheap in Hdh, Hdl.
  pose proof (module_body_run settings cloudwatch_handlers expanduser w2 lh ll dh dl t
                Hh Hl Hne Hdh Hdl Ht) as Hrun2.
  rewrite Hheap in Hdh, Hdl.
  unfold loaded. rewrite Hrun1, Hrun2. cbn [fst snd].
  set (H1 := handlers_after settings cloudwatch_handlers (os_environ w1) _ dh).
  set (L1 := loggers_after (os_environ w1) dl).
  split; [split_and!|].
  - done.
  - unfold with_dicts. cbn [heap]. rewrite Hheap. unfold H1, L1.
    by rewrite Hbase, (handlers_after_same _ _ _ _ Hsame), (loggers_after_same _ _ _ Hsame).
  - done.
  - set (w' := with_dicts (os_environ w1) D (heap w1) lh ll H1 L1).
    assert (HH : heap w' !! lh = Some (VDict H1)).
    { unfold w', with_dicts. cbn [heap]. rewrite lookup_insert_ne by done.
      apply lookup_insert_eq. }
    assert (HL : heap w' !! ll = Some (VDict L1)).
    { unfold w', with_dicts. cbn [heap]. apply lookup_insert_eq. }
    destruct (loggers_after_task_logger (os_environ w1) dl t Ht) as [t' Ht'].
    assert (Hw' : with_dicts (os_environ w1) D (heap w') lh ll H1 L1 = w').
    { unfold with_dicts at 1. rewrite (insert_id (heap w') lh) by done.
      by rewrite insert_id. }
    assert (HiH : handlers_after settings cloudwatch_handlers (os_environ w1)
                    (expanduser (os_environ w1) (BASE_LOG_FOLDER settings)) H1 = H1)
      by apply handlers_after_idemp.
    assert (HiL : loggers_after (os_environ w1) L1 = L1) by apply loggers_after_idemp.
    split.
    + rewrite (module_body_run settings cloudwatch_handlers expanduser w' lh ll H1 L1 t')
        by done.
      change (os_environ w') with (os_environ w1). by rewrite HiH, HiL, Hw'.
    + rewrite <- Hw' at 1.
      rewrite (run_configure settings cloudwatch_handlers expanduser (os_environ w1) D
                 (heap w') lh ll Hh Hl Hne t' H1 L1 Ht').
      by rewrite HiH, HiL, Hw'.
Qed.
End purity.


Lemma handler_entries_have_parameters_witness :
  ∃ SOURCE arn,
    SOURCE ∈ sources ∧
    log_group_arn_var sample_env SOURCE = Some arn ∧
    has_handler_parameters arn (logs_enabled_var sample_env SOURCE)
      (subprocess_handler sample_cloudwatch_handlers "worker_requirements"
         "arn:aws:logs:us-west-2:123456789012:log-group:airflow-Worker" true).
Proof.
  apply (handler_entries_have_parameters sample_settings sample_cloudwatch_handlers
           sample_expanduser (sample_world sample_env) "mwaa_worker_requirements").
  - reflexivity.
  - reflexivity.
  - vm_compute. discriminate.
Defined.

Lemma entries_added_iff_log_group_arn_witness :
  (∃ entry,
     handlers (loaded sample_settings sample_cloudwatch_handlers sample_expanduser
                 (sample_world sample_env)) !! "mwaa_worker" = Some entry ∧
     has_handler_parameters "arn:aws:logs:us-west-2:123456789012:log-group:airflow-Worker"
       true entry) ∧
  (∃ params,
     loggers (loaded sample_settings sample_cloudwatch_handlers sample_expanduser
                (sample_world sample_env)) !! "mwaa.worker" = Some (VDict params) ∧
     params !! "level" = Some (VStr "WARNING")).
Proof.
  apply (entries_added_iff_log_group_arn sample_settings sample_cloudwatch_handlers
           sample_expanduser (sample_world sample_env) "WORKER" "mwaa_worker" "mwaa.worker").
  - reflexivity.
  - unfold registrations. do 3 apply list_elem_of_further. apply list_elem_of_here.
Defined.

Lemma requirements_entries_without_own_variable :
  worker_only_env !! "MWAA__LOGGING__AIRFLOW_WORKER_REQUIREMENTS_LOG_GROUP_ARN" = None ∧
  default_handlers sample_settings (sample_world worker_only_env)
    !! "mwaa_worker_requirements" = None ∧
  default_loggers sample_settings (sample_world worker_only_env)
    !! "mwaa.worker_requirements" = None ∧
  handlers (loaded sample_settings sample_cloudwatch_handlers sample_expanduser
              (sample_world worker_only_env)) !! "mwaa_worker_requirements" =
    Some (subprocess_handler sample_cloudwatch_handlers "worker_requirements"
            "arn:aws:logs:us-west-2:123456789012:log-group:airflow-Worker" false) ∧
  loggers (loaded sample_settings sample_cloudwatch_handlers sample_expanduser
             (sample_world worker_only_env)) !! "mwaa.worker_requirements" =
    Some (logger_entry "mwaa_worker_requirements" "INFO").
Proof. split_and!; reflexivity. Qed.

Lemma enabled_flag_iff_logs_enabled_witness :
  ∃ params enabled,
    handlers (loaded sample_settings sample_cloudwatch_handlers sample_expanduser
                (sample_world sample_env)) !! "mwaa_worker_requirements" =
      Some (VDict params) ∧
    params !! "enabled" = Some (VBool enabled) ∧
    (enabled = true ↔
     ∃ v, sample_env !! "MWAA__LOGGING__AIRFLOW_WORKER_LOGS_ENABLED" = Some v ∧
          is_true_ignoring_case v) ∧
    (sample_env !! "MWAA__LOGGING__AIRFLOW_WORKER_LOGS_ENABLED" = None → enabled = false).
Proof.
  apply (enabled_flag_iff_logs_enabled sample_settings sample_cloudwatch_handlers
           sample_expanduser (sample_world sample_env) "WORKER" "mwaa_worker_requirements"
           "mwaa.worker_requirements"
           "arn:aws:logs:us-west-2:123456789012:log-group:airflow-Worker").
  - reflexivity.
  - unfold registrations. do 4 apply list_elem_of_further. apply list_elem_of_here.
  - reflexivity.
Defined.

Lemma new_loggers_do_not_propagate_witness :
  ∃ params hparams,
    loggers (loaded sample_settings sample_cloudwatch_handlers sample_expanduser
               (sample_world sample_env)) !! "airflow.processor" = Some (VDict params) ∧
    params !! "propagate" = Some (VBool false) ∧
    params !! "handlers" = Some (VList [VStr "processor"]) ∧
    handlers (loaded sample_settings sample_cloudwatch_handlers sample_expanduser
                (sample_world sample_env)) !! "processor" = Some (VDict hparams) ∧
    hparams !! "log_group_arn" =
      Some (VStr "arn:aws:logs:us-west-2:123456789012:log-group:airflow-DAGProcessing").
Proof.
  apply (new_loggers_do_not_propagate sample_settings sample_cloudwatch_handlers
           sample_expanduser (sample_world sample_env) "airflow.processor" "DAG_PROCESSING"
           "processor").
  - reflexivity.
  - unfold logger_rows. apply list_elem_of_further, list_elem_of_here.
  - reflexivity.
Defined.

Lemma component_drives_two_registrations_witness :
  ∃ h1 h2,
    handlers (loaded sample_settings sample_cloudwatch_handlers sample_expanduser
                (sample_world sample_env)) !! "mwaa_worker" = Some (VDict h1) ∧
    handlers (loaded sample_settings sample_cloudwatch_handlers sample_expanduser
                (sample_world sample_env)) !! "mwaa_worker_requirements" = Some (VDict h2) ∧
    h1 !! "log_group_arn" = h2 !! "log_group_arn" ∧
    h1 !! "enabled" = h2 !! "enabled".
Proof.
  pose proof (component_drives_two_registrations sample_settings sample_cloudwatch_handlers
                sample_expanduser (sample_world sample_env) "worker" "WORKER") as H.
  change (log_group_arn_var (os_environ (sample_world sample_env)) "WORKER")
    with (Some "arn:aws:logs:us-west-2:123456789012:log-group:airflow-Worker") in H.
  cbv beta iota in H.
  destruct H as (h1 & h2 & l1 & l2 & H1 & H2 & _ & _ & Ha1 & Ha2 & He1 & He2 & _).
  - reflexivity.
  - unfold components. apply list_elem_of_here.
  - exists h1, h2. split_and!; [exact H1|exact H2|congruence|congruence].
Defined.



Lemma names_fixed_by_presence_witness :
  dom (handlers (loaded sample_settings sample_cloudwatch_handlers sample_expanduser
                   (sample_world sample_env))) =
  dom (handlers (loaded sample_settings sample_cloudwatch_handlers sample_expanduser
                   (sample_world sample_env_other))) ∧
  dom (loggers (loaded sample_settings sample_cloudwatch_handlers sample_expanduser
                  (sample_world sample_env))) =
  dom (loggers (loaded sample_settings sample_cloudwatch_handlers sample_expanduser
                  (sample_world sample_env_other))).
Proof.
  apply (names_fixed_by_presence sample_settings sample_cloudwatch_handlers sample_expanduser
           (sample_world sample_env) (sample_world sample_env_other)).
  - reflexivity.
  - reflexivity.
  - intros SOURCE Hin. unfold sources in Hin.
    repeat (apply elem_of_cons in Hin as [->|Hin];
            [vm_compute; split; intros [? [=]]; eexists; reflexivity
             || (vm_compute; split; intros _; eexists; reflexivity)|]).
    by apply elem_of_nil in Hin.
Defined.

Lemma handler_names_depend_on_environment :
  dom (handlers (loaded sample_settings sample_cloudwatch_handlers sample_expanduser
                   (sample_world ∅))) ≠
  dom (handlers (loaded sample_settings sample_cloudwatch_handlers sample_expanduser
                   (sample_world worker_only_env))).
Proof.
  intros Heq.
  assert (Hin : "mwaa_worker" ∈
    dom (handlers (loaded sample_settings sample_cloudwatch_handlers sample_expanduser
                     (sample_world worker_only_env)))).
  { apply elem_of_dom. eexists. reflexivity. }
  rewrite <- Heq in Hin. apply elem_of_dom in Hin as [entry Hentry].
  vm_compute in Hentry. discriminate.
Qed.

Lemma dag_processing_registers_two_pairs_witness :
  let r := _configure_dag_processing_logging sample_settings sample_cloudwatch_handlers
             (sample_bound_world sample_env) in
  r.1 = inr tt ∧
  (∀ name, name ≠ "processor_manager" → name ≠ "processor" →
           handlers r.2 !! name = handlers (sample_bound_world sample_env) !! name).
Proof.
  intros r.
  destruct (dag_processing_registers_two_pairs sample_settings sample_cloudwatch_handlers
              (sample_bound_world sample_env)
              "arn:aws:logs:us-west-2:123456789012:log-group:airflow-DAGProcessing")
    as (Hret & _ & Hhandlers & _).
  - reflexivity.
  - reflexivity.
  - split; [exact Hret|exact Hhandlers].
Defined.

Lemma configuration_is_function_of_environment_witness :
  heap (loaded sample_settings sample_cloudwatch_handlers sample_expanduser
          (sample_world sample_env)) =
  heap (loaded sample_settings sample_cloudwatch_handlers sample_expanduser
          (sample_world sample_env_unrelated)) ∧
  module_body sample_settings sample_cloudwatch_handlers sample_expanduser
    (loaded sample_settings sample_cloudwatch_handlers sample_expanduser
       (sample_world sample_env)) =
  (inr tt, loaded sample_settings sample_cloudwatch_handlers sample_expanduser
             (sample_world sample_env)).
Proof.
  destruct (configuration_is_function_of_environment sample_settings
              sample_cloudwatch_handlers sample_expanduser
              (sample_world sample_env) (sample_world sample_env_unrelated))
    as ((_ & Hheap & _) & Hagain & _).
  - reflexivity.
  - reflexivity.
  - intros SOURCE suffix Hsrc Hsuffix. unfold sources in Hsrc.
    repeat (apply elem_of_cons in Hsrc as [->|Hsrc];
            [repeat (apply elem_of_cons in Hsuffix as [->|Hsuffix]; [reflexivity|]);
             by apply elem_of_nil in Hsuffix|]).
    by apply elem_of_nil in Hsrc.
  - reflexivity.
  - split; [exact Hheap|exact Hagain].
Defined.

(** * Further properties of the module *)

Lemma string_app_nil_r (s : string) : s ++ "" = s.
Proof. induction s as [|c s IH]; [done|]. by rewrite <- IH at 2. Qed.

Lemma string_app_assoc (a b c : string) : a ++ b ++ c = (a ++ b) ++ c.
Proof.
  induction a as [|x a IH]; [done|].
  change (String x a ++ b ++ c) with (String x (a ++ b ++ c)). by rewrite IH.
Qed.

Lemma occurs_app c a b : occurs c (a ++ b) = occurs c a || occurs c b.
Proof.
  induction a as [|c' a IH]; [done|].
  change (String c' a ++ b) with (String c' (a ++ b)). simpl. by rewrite IH, orb_assoc.
Qed.

Lemma basename_from_no_slash acc p :
  occurs "/" p = false → basename_from acc p = acc ++ p.
Proof.
  revert acc. induction p as [|c p IH]; intros acc Hp; simpl in *.
  - symmetry. apply string_app_nil_r.
  - apply orb_false_iff in Hp as [Hc Hp]. rewrite Hc, IH by done.
    by rewrite <- string_app_assoc.
Qed.

Lemma basename_from_last acc dir file :
  basename_from acc (dir ++ "/" ++ file) = basename_from EmptyString file.
Proof.
  revert acc. induction dir as [|c dir IH]; intros acc.
  - reflexivity.
  - change (String c dir ++ "/" ++ file) with (String c (dir ++ "/" ++ file)). simpl.
    destruct (Ascii.eqb c "/"); apply IH.
Qed.

Lemma basename_from_no_slash_result acc p :
  occurs "/" acc = false → occurs "/" (basename_from acc p) = false.
Proof.
  revert acc. induction p as [|c p IH]; intros acc Hacc; simpl; [done|].
  destruct (Ascii.eqb c "/") eqn:Hc; apply IH; [done|].
  rewrite occurs_app, Hacc. simpl. by rewrite Hc.
Qed.

Lemma basename_last dir file :
  occurs "/" file = false → basename (dir ++ "/" ++ file) = file.
Proof.
  intros Hfile. unfold basename. rewrite basename_from_last.
  by rewrite basename_from_no_slash.
Qed.

Lemma dotted_inj m1 q1 m2 q2 :
  occurs "." q1 = false → occurs "." q2 = false →
  m1 ++ "." ++ q1 = m2 ++ "." ++ q2 → m1 = m2 ∧ q1 = q2.
Proof.
  intros Hq1 Hq2. revert m2.
  induction m1 as [|c1 m1 IH]; intros [|c2 m2] Heq.
  - change (String "." q1 = String "." q2) in Heq. by injection Heq as ->.
  - change (String "." q1 = String c2 (m2 ++ "." ++ q2)) in Heq.
    injection Heq as <- ->. rewrite occurs_app in Hq1.
    apply orb_false_iff in Hq1 as [_ Hq1]. vm_compute in Hq1. discriminate.
  - change (String c1 (m1 ++ "." ++ q1) = String "." q2) in Heq.
    injection Heq as -> <-. rewrite occurs_app in Hq2.
    apply orb_false_iff in Hq2 as [_ Hq2]. vm_compute in Hq2. discriminate.
  - change (String c1 (m1 ++ "." ++ q1) = String c2 (m2 ++ "." ++ q2)) in Heq.
    injection Heq as -> Heq. by destruct (IH _ Heq) as [-> ->].
Qed.

(** X13.  [_qualified_name] tells classes apart: two classes whose
    qualified names hold no dot (top-level classes) and that get the same
    reference have the same module and the same name. *)
Theorem qualified_name_inj cls1 cls2 :
  occurs "." (__qualname__ cls1) = false →
  occurs "." (__qualname__ cls2) = false →
  _qualified_name cls1 = _qualified_name cls2 → cls1 = cls2.
Proof.
  intros H1 H2 Heq. destruct cls1 as [m1 q1], cls2 as [m2 q2].
  unfold _qualified_name in Heq. simpl in *.
  by destruct (dotted_inj m1 q1 m2 q2 H1 H2 Heq) as [-> ->].
Qed.

Lemma defaults_ok_intro c h lh ll dh dl t :
  c !! "handlers" = Some lh → c !! "loggers" = Some ll → lh ≠ ll →
  h !! lh = Some (VDict dh) → h !! ll = Some (VDict dl) →
  dl !! "airflow.task" = Some (VDict t) →
  defaults_ok c h = true.
Proof.
  intros Hh Hl Hne Hdh Hdl Ht. unfold defaults_ok. unfold loc in *.
  rewrite Hh, Hl, Hdh, Hdl, Ht.
  apply andb_true_intro. split; [|done]. by apply negb_true_iff, Pos.eqb_neq.
Qed.

Lemma bind_raise {A B} (m : M A) (f : A → M B) w e w' :
  m w = (inl e, w') → (m ≫= f) w = (inl e, w').
Proof. intros H. unfold mbind, M_bind. by rewrite H. Qed.

Lemma run_update_loggers_raise env c h lh ll k other dh dl :
  (∀ t, dl !! k ≠ Some (VDict t)) →
  getitem_update ll k other (with_dicts env c h lh ll dh dl) =
  (inl (if dl !! k is Some _ then AttributeError else KeyError k),
   with_dicts env c h lh ll dh dl).
Proof.
  intros Hk. unfold getitem_update, with_dicts. cbn [heap]. rewrite lookup_insert_eq.
  destruct (dl !! k) as [[| | | | |t]|]; try done. by destruct (Hk t).
Qed.

Lemma write_if_commute {A B} (o1 : option A) (o2 : option B) k1 k2 f1 f2 d :
  k1 ≠ k2 →
  write_if o1 k1 f1 (write_if o2 k2 f2 d) = write_if o2 k2 f2 (write_if o1 k1 f1 d).
Proof.
  intros Hne. destruct o1, o2; simpl; try done. by apply insert_insert_ne.
Qed.

Lemma write_if_override {A B} (o1 : option A) (b : B) k f1 f2 d :
  write_if (Some b) k f2 (write_if o1 k f1 d) = write_if (Some b) k f2 d.
Proof. destruct o1; simpl; [|done]. apply insert_insert_eq. Qed.

Lemma handler_rows_filters settings cw base :
  Forall (λ r, ∀ arn enabled, ∃ params,
            r.2.2 arn enabled = VDict params ∧
            params !! "filters" =
              if decide (r.1 = "processor_manager" ∨ r.1 = "processor") then None
              else Some (VList [VStr "mask_secrets"]))
    (handler_rows settings cw base).
Proof.
  unfold handler_rows.
  repeat (apply Forall_cons; split;
    [intros arn enabled; eexists; split; [reflexivity|];
     cbn [fst snd]; case_decide as Hname;
     [destruct Hname as [Hname|Hname]; try discriminate Hname; reflexivity
     |try reflexivity; exfalso; apply Hname; by eauto]|]).
  apply Forall_nil_2.
Qed.

Section further.
Variable settings : airflow_local_settings.
Variable cloudwatch_handlers : cloudwatch_handlers_module.
Variable expanduser : gmap string string → string → string.

#[local] Abbreviation D := (DEFAULT_LOGGING_CONFIG settings).
#[local] Abbreviation load := (loaded settings cloudwatch_handlers expanduser).
#[local] Abbreviation body := (module_body settings cloudwatch_handlers expanduser).
#[local] Abbreviation task_logging :=
  (_configure_task_logging settings cloudwatch_handlers expanduser).
#[local] Abbreviation dag_processing_logging :=
  (_configure_dag_processing_logging settings cloudwatch_handlers).
#[local] Abbreviation subprocesses_logging :=
  (_configure_subprocesses_logging cloudwatch_handlers).

(** X1.  With defaults of Airflow's shape the module body raises nothing,
    whatever the environment holds, and the defaults still have that shape
    when it returns. *)
Theorem module_body_returns w :
  defaults_ok D (heap w) = true →
  (body w).1 = inr tt ∧ defaults_ok D (heap (load w)) = true.
Proof.
  intros Hok.
  destruct (defaults_ok_shape _ _ Hok) as (lh & ll & dh & dl & t & Hh & Hl & Hne & Hdh & Hdl & Ht).
  unfold loaded.
  rewrite (module_body_run settings cloudwatch_handlers expanduser w lh ll dh dl t) by done.
  split; [done|]. cbn [fst snd].
  destruct (loggers_after_task_logger (os_environ w) dl t Ht) as [t' Ht'].
  eapply (defaults_ok_intro _ _ lh ll); [done..| | |exact Ht']; unfold with_dicts; cbn [heap].
  - rewrite lookup_insert_ne by done. apply lookup_insert_eq.
  - apply lookup_insert_eq.
Qed.

Lemma run_component_without_log_group comp w :
  log_group_arn_var (os_environ w) (upper comp) = None →
  ('(log_group_arn, log_level, logging_enabled) ← _get_mwaa_logging_env_vars comp;
   subprocesses_logging comp log_group_arn log_level logging_enabled ;;
   subprocesses_logging (comp ++ "_requirements") log_group_arn log_level logging_enabled) w =
  (inr tt, w).
Proof.
  intros Harn. etransitivity; [eapply bind_run; apply run_env_vars|]. by rewrite Harn.
Qed.

(** X2.  When none of the five log group ARN variables is set, the
    module body only binds [LOGGING_CONFIG]: it subscripts nothing, writes
    nothing and raises nothing, whatever the defaults look like. *)
Theorem module_body_without_log_groups w :
  (∀ SOURCE, SOURCE ∈ sources → log_group_arn_var (os_environ w) SOURCE = None) →
  body w = (inr tt, set_LOGGING_CONFIG D w).
Proof.
  intros Hnone. unfold module_body.
  etransitivity; [eapply bind_run; reflexivity|].
  set (w1 := set_LOGGING_CONFIG D w).
  assert (Harn : ∀ SOURCE, SOURCE ∈ sources → log_group_arn_var (os_environ w1) SOURCE = None)
    by exact Hnone.
  clearbody w1. unfold _configure.
  assert (Htask : task_logging w1 = (inr tt, w1)).
  { unfold _configure_task_logging.
    etransitivity; [eapply bind_run; apply run_env_vars|].
    change (upper "task") with "TASK". by rewrite Harn by solve_elem_of_list. }
  assert (Hdag : dag_processing_logging w1 = (inr tt, w1)).
  { unfold _configure_dag_processing_logging.
    etransitivity; [eapply bind_run; apply run_env_vars|].
    change (upper "dag_processing") with "DAG_PROCESSING". by rewrite Harn by solve_elem_of_list. }
  etransitivity; [eapply bind_run; exact Htask|].
  etransitivity; [eapply bind_run; exact Hdag|].
  unfold for_each.
  do 3 (etransitivity;
        [eapply bind_run; apply run_component_without_log_group, Harn; solve_elem_of_list|]).
  reflexivity.
Qed.

(** X4.  With an ARN, [_configure_subprocesses_logging] returns normally
    exactly when ["handlers"] and ["loggers"] are both bound to
    dictionaries. *)
Theorem subprocesses_logging_returns_iff w name arn level enabled :
  (subprocesses_logging name (Some arn) level enabled w).1 = inr tt ↔
  is_Some (dict_at (LOGGING_CONFIG w) (heap w) "handlers") ∧
  is_Some (dict_at (LOGGING_CONFIG w) (heap w) "loggers").
Proof.
  unfold _configure_subprocesses_logging, dict_at, mbind, M_bind,
    LOGGING_CONFIG_getitem, setitem, set_heap.
  destruct (LOGGING_CONFIG w !! "handlers") as [lh|]; cbn [fst snd].
  2: { split; [done|]. by intros [[? [=]] _]. }
  destruct (heap w !! lh) as [vh|] eqn:Hlh.
  2: { split; [done|]. by intros [[? [=]] _]. }
  destruct vh as [| | | | |dh]; try (split; [done|by intros [[? [=]] _]]).
  cbn [LOGGING_CONFIG heap].
  destruct (LOGGING_CONFIG w !! "loggers") as [ll|]; cbn [fst snd heap].
  2: { split; [done|]. by intros [_ [? [=]]]. }
  rewrite lookup_insert. case_decide as Hll.
  - subst ll. rewrite Hlh. cbn [fst]. split; [|done]. intros _. by split.
  - destruct (heap w !! ll) as [[| | | | |dl]|]; cbn [fst];
      (split; [try done; intros _; by split|try done; by intros [_ [? [=]]]]).
Qed.

(** X3.  With the task ARN set, [_configure_task_logging] returns
    normally exactly when ["handlers"] is bound to a dictionary and
    ["loggers"] to a dictionary whose ["airflow.task"] entry is a
    dictionary. *)
Theorem task_logging_returns_iff w arn :
  log_group_arn_var (os_environ w) "TASK" = Some arn →
  (task_logging w).1 = inr tt ↔
  is_Some (dict_at (LOGGING_CONFIG w) (heap w) "handlers") ∧
  ∃ dl t, dict_at (LOGGING_CONFIG w) (heap w) "loggers" = Some dl ∧
          dl !! "airflow.task" = Some (VDict t).
Proof.
  intros Harn.
  eassert (Hrun : task_logging w = _).
  { unfold _configure_task_logging.
    etransitivity; [eapply bind_run; apply run_env_vars|].
    change (upper "task") with "TASK". rewrite Harn. cbv beta iota.
    etransitivity; [eapply bind_run; reflexivity|]. reflexivity. }
  rewrite Hrun. clear Hrun.
  unfold dict_at, mbind, M_bind, LOGGING_CONFIG_getitem, setitem, getitem_update, set_heap.
  destruct (LOGGING_CONFIG w !! "handlers") as [lh|]; cbn [fst snd].
  2: { split; [done|]. by intros [[? [=]] _]. }
  destruct (heap w !! lh) as [vh|] eqn:Hlh.
  2: { split; [done|]. by intros [[? [=]] _]. }
  destruct vh as [| | | | |dh]; try (split; [done|by intros [[? [=]] _]]).
  cbn [LOGGING_CONFIG heap].
  destruct (LOGGING_CONFIG w !! "loggers") as [ll|]; cbn [fst snd heap].
  2: { split; [done|]. by intros (_ & ? & ? & [=] & _). }
  rewrite lookup_insert. case_decide as Hll.
  - subst ll. rewrite Hlh, lookup_insert_ne by done.
    destruct (dh !! "airflow.task") as [[| | | | |t]|] eqn:Ht; cbn [fst];
      (split; [try done|try (intros (_ & ? & ? & [= <-] & Ht'); by rewrite Ht in Ht')]).
    intros _. split; [done|]. by exists dh, t.
  - destruct (heap w !! ll) as [[| | | | |dl]|]; cbn [fst];
      try (split; [done|by intros (_ & ? & ? & [=] & _)]).
    destruct (dl !! "airflow.task") as [[| | | | |t]|] eqn:Ht; cbn [fst];
      (split; [try done|try (intros (_ & ? & ? & [= <-] & Ht'); by rewrite Ht in Ht')]).
    intros _. split; [done|]. by exists dl, t.
Qed.

(** X5.  With the task ARN set and no ["airflow.task"] dictionary among
    the loggers, the module body raises [KeyError] (entry missing) or
    [AttributeError] (entry not a dictionary) after the task handler has
    been replaced: that one write stays, the loggers are untouched and no
    other handler is registered. *)
Theorem module_body_raises_after_task_handler w lh ll dh dl arn :
  D !! "handlers" = Some lh → D !! "loggers" = Some ll → lh ≠ ll →
  heap w !! lh = Some (VDict dh) → heap w !! ll = Some (VDict dl) →
  (∀ t, dl !! "airflow.task" ≠ Some (VDict t)) →
  log_group_arn_var (os_environ w) "TASK" = Some arn →
  (body w).1 =
    inl (if dl !! "airflow.task" is Some _ then AttributeError else KeyError "airflow.task") ∧
  handlers (load w) =
    <["task" := task_handler cloudwatch_handlers
                  (expanduser (os_environ w) (BASE_LOG_FOLDER settings)) arn
                  (logs_enabled_var (os_environ w) "TASK")]> dh ∧
  loggers (load w) = dl.
Proof.
  intros Hh Hl Hne Hdh Hdl Ht Harn.
  eassert (Hrun : body w = _).
  { unfold module_body. etransitivity; [eapply bind_run; reflexivity|].
    replace (set_LOGGING_CONFIG D w)
      with (with_dicts (os_environ w) D (heap w) lh ll dh dl).
    2: { unfold with_dicts, set_LOGGING_CONFIG. f_equal.
         rewrite (insert_id (heap w) lh) by done. by apply insert_id. }
    unfold _configure. eapply bind_raise. unfold _configure_task_logging.
    etransitivity; [eapply bind_run; apply run_env_vars_wd|].
    change (upper "task") with "TASK". rewrite Harn. cbv beta iota.
    etransitivity; [eapply bind_run; by apply run_expanduser|].
    etransitivity; [eapply bind_run; by apply run_getitem_handlers|].
    etransitivity; [eapply bind_run; by apply run_setitem_handlers|].
    etransitivity; [eapply bind_run; by apply run_getitem_loggers|].
    by apply run_update_loggers_raise. }
  unfold loaded. rewrite Hrun. cbn [fst snd].
  by rewrite handlers_with_dicts, loggers_with_dicts.
Qed.

(** X6.  Without a ["handlers"] key in [LOGGING_CONFIG], each setup
    function whose ARN is set raises [KeyError] on that key and leaves the
    world as it was. *)
Theorem setup_raises_without_handlers w :
  LOGGING_CONFIG w !! "handlers" = None →
  (∀ name arn level enabled,
     subprocesses_logging name (Some arn) level enabled w = (inl (KeyError "handlers"), w)) ∧
  (∀ arn, log_group_arn_var (os_environ w) "DAG_PROCESSING" = Some arn →
          dag_processing_logging w = (inl (KeyError "handlers"), w)) ∧
  (∀ arn, log_group_arn_var (os_environ w) "TASK" = Some arn →
          task_logging w = (inl (KeyError "handlers"), w)).
Proof.
  intros Hnone.
  assert (Hget : ∀ B (f : loc → M B),
            (LOGGING_CONFIG_getitem "handlers" ≫= f) w = (inl (KeyError "handlers"), w)).
  { intros B f. apply bind_raise. unfold LOGGING_CONFIG_getitem. by rewrite Hnone. }
  split_and!.
  - intros name arn level enabled. apply Hget.
  - intros arn Harn. unfold _configure_dag_processing_logging.
    etransitivity; [eapply bind_run; apply run_env_vars|].
    change (upper "dag_processing") with "DAG_PROCESSING". rewrite Harn. apply Hget.
  - intros arn Harn. unfold _configure_task_logging.
    etransitivity; [eapply bind_run; apply run_env_vars|].
    change (upper "task") with "TASK". rewrite Harn. cbv beta iota.
    etransitivity; [eapply bind_run; reflexivity|]. apply Hget.
Qed.

(** X7.  The load touches nothing but the nine handler names and nine
    logger names of the registrations: every other handler, every other
    logger and every other top-level object of the configuration is what the
    defaults had. *)
Theorem unregistered_names_untouched w :
  defaults_ok D (heap w) = true →
  (∀ name, name ∉ registered_handlers →
           handlers (load w) !! name = default_handlers settings w !! name) ∧
  (∀ name, name ∉ registered_loggers →
           loggers (load w) !! name = default_loggers settings w !! name) ∧
  (∀ l, D !! "handlers" ≠ Some l → D !! "loggers" ≠ Some l →
        heap (load w) !! l = heap w !! l).
Proof.
  intros Hok.
  destruct (module_body_spec settings cloudwatch_handlers expanduser w Hok) as (_ & Hhs & Hls).
  destruct (defaults_ok_shape _ _ Hok) as (lh & ll & dh & dl & t & Hh & Hl & Hne & Hdh & Hdl & Ht).
  split_and!.
  - intros name Hname. rewrite Hhs, handlers_after_lookup.
    replace (lookup_row name _) with (@None (string * (string → bool → value))); [done|].
    symmetry. by apply lookup_row_None.
  - intros name Hname. rewrite Hls, loggers_after_lookup, task_loggers_lookup.
    apply not_elem_of_cons in Hname as [Htask Hname].
    rewrite decide_False by done.
    replace (lookup_row name logger_rows) with (@None (string * string)); [done|].
    symmetry. by apply lookup_row_None.
  - intros l Hlh Hll. unfold loaded.
    rewrite (module_body_run settings cloudwatch_handlers expanduser w lh ll dh dl t) by done.
    unfold with_dicts. cbn [snd heap].
    rewrite !lookup_insert_ne; [done|intros ->; by apply Hlh|intros ->; by apply Hll].
Qed.

(** X8.  The copy is shallow: after the load
    [DEFAULT_LOGGING_CONFIG] shows the same handlers and loggers as
    [LOGGING_CONFIG], so a registered handler is found under Airflow's own
    defaults too. *)
Theorem defaults_see_the_registrations w SOURCE handler logger arn :
  defaults_ok D (heap w) = true →
  (SOURCE, handler, logger) ∈ registrations →
  log_group_arn_var (os_environ w) SOURCE = Some arn →
  default_handlers settings (load w) = handlers (load w) ∧
  default_loggers settings (load w) = loggers (load w) ∧
  ∃ entry, default_handlers settings (load w) !! handler = Some entry ∧
           has_handler_parameters arn (logs_enabled_var (os_environ w) SOURCE) entry.
Proof.
  intros Hok Hreg Harn.
  assert (Hc : LOGGING_CONFIG (load w) = D).
  { destruct (keeps_configure settings cloudwatch_handlers expanduser
                (set_LOGGING_CONFIG D w)) as (_ & Hc & _). exact Hc. }
  assert (Hhs : default_handlers settings (load w) = handlers (load w))
    by (unfold default_handlers, handlers; by rewrite Hc).
  split_and!; [done|unfold default_loggers, loggers; by rewrite Hc|].
  rewrite Hhs.
  pose proof (registration_spec settings cloudwatch_handlers expanduser w SOURCE handler logger
                Hok Hreg) as Hspec.
  rewrite Harn in Hspec. by destruct Hspec as [Hentry _].
Qed.

(** X10.  Every handler entry the module writes carries the
    [mask_secrets] filter, except the two DAG-processing handlers
    [processor_manager] and [processor], which have no ["filters"] key. *)
Theorem secrets_are_masked_outside_dag_processing w name entry :
  defaults_ok D (heap w) = true →
  handlers (load w) !! name = Some entry →
  default_handlers settings w !! name ≠ Some entry →
  ∃ params,
    entry = VDict params ∧
    params !! "filters" =
      if decide (name = "processor_manager" ∨ name = "processor") then None
      else Some (VList [VStr "mask_secrets"]).
Proof.
  intros Hok Hentry Hnew.
  destruct (module_body_spec settings cloudwatch_handlers expanduser w Hok) as (_ & Hhs & _).
  rewrite Hhs, handlers_after_lookup in Hentry.
  destruct (lookup_row name _) as [[SRC mk]|] eqn:Hrow; [|done].
  apply lookup_row_Some in Hrow.
  pose proof (handler_rows_filters settings cloudwatch_handlers
    (expanduser (os_environ w) (BASE_LOG_FOLDER settings))) as Hrows.
  rewrite Forall_forall in Hrows. specialize (Hrows _ Hrow). cbn [fst snd] in Hrows.
  destruct (log_group_arn_var (os_environ w) SRC) as [arn|]; [|done].
  injection Hentry as <-. apply Hrows.
Qed.

(** X11.  The stream name of the [processor_manager] handler is the last
    component of [DAG_PROCESSOR_MANAGER_LOG_LOCATION]: for a location
    [dir/file], with no slash in [file], it is [file]. *)
Theorem processor_manager_stream_name w dir file arn :
  DAG_PROCESSOR_MANAGER_LOG_LOCATION settings = dir ++ "/" ++ file →
  occurs "/" file = false →
  defaults_ok D (heap w) = true →
  log_group_arn_var (os_environ w) "DAG_PROCESSING" = Some arn →
  ∃ params,
    handlers (load w) !! "processor_manager" = Some (VDict params) ∧
    params !! "stream_name" = Some (VStr file).
Proof.
  intros Hloc Hfile Hok Harn.
  destruct (module_body_spec settings cloudwatch_handlers expanduser w Hok) as (_ & Hhs & _).
  rewrite Hhs, handlers_after_lookup.
  change (lookup_row "processor_manager" _)
    with (Some ("DAG_PROCESSING", processor_manager_handler settings cloudwatch_handlers)).
  cbv beta iota. rewrite Harn. eexists. split; [reflexivity|].
  unfold dict_display. cbn [foldl fst snd].
  rewrite lookup_insert_ne, lookup_insert_eq by done.
  by rewrite Hloc, basename_last.
Qed.

(** X12.  Whatever [DAG_PROCESSOR_MANAGER_LOG_LOCATION] is, the stream
    name of the [processor_manager] handler contains no slash. *)
Theorem processor_manager_stream_name_has_no_slash w arn :
  defaults_ok D (heap w) = true →
  log_group_arn_var (os_environ w) "DAG_PROCESSING" = Some arn →
  ∃ params stream_name,
    handlers (load w) !! "processor_manager" = Some (VDict params) ∧
    params !! "stream_name" = Some (VStr stream_name) ∧
    occurs "/" stream_name = false.
Proof.
  intros Hok Harn.
  destruct (module_body_spec settings cloudwatch_handlers expanduser w Hok) as (_ & Hhs & _).
  rewrite Hhs, handlers_after_lookup.
  change (lookup_row "processor_manager" _)
    with (Some ("DAG_PROCESSING", processor_manager_handler settings cloudwatch_handlers)).
  cbv beta iota. rewrite Harn. eexists _, _. split; [reflexivity|].
  unfold dict_display. cbn [foldl fst snd].
  rewrite lookup_insert_ne, lookup_insert_eq by done.
  split; [reflexivity|]. by apply basename_from_no_slash_result.
Qed.

(** X9.  The load removes no handler and no logger: every name of the
    defaults is still a name of the loaded configuration. *)
Theorem no_name_is_removed w :
  defaults_ok D (heap w) = true →
  dom (default_handlers settings w) ⊆ dom (handlers (load w)) ∧
  dom (default_loggers settings w) ⊆ dom (loggers (load w)).
Proof.
  intros Hok.
  destruct (module_body_spec settings cloudwatch_handlers expanduser w Hok) as (_ & Hhs & Hls).
  rewrite Hhs, Hls. split; intros k; rewrite !elem_of_dom; intros Hk.
  - rewrite handlers_after_rows, apply_rows_is_Some by apply handler_rows_NoDup. by left.
  - rewrite loggers_after_rows, apply_rows_is_Some by apply logger_rows_NoDup.
    left. by apply task_loggers_is_Some.
Qed.

(** X14.  Registrations of two different subprocess names commute: the
    two calls of [_configure_subprocesses_logging] give the same result and
    the same world in either order. *)
Theorem subprocesses_logging_commute w name1 arn1 level1 enabled1 name2 arn2 level2 enabled2 :
  defaults_ok (LOGGING_CONFIG w) (heap w) = true →
  name1 ≠ name2 →
  (subprocesses_logging name1 arn1 level1 enabled1 ;;
   subprocesses_logging name2 arn2 level2 enabled2) w =
  (subprocesses_logging name2 arn2 level2 enabled2 ;;
   subprocesses_logging name1 arn1 level1 enabled1) w.
Proof.
  intros (lh & ll & dh & dl & t & Hh & Hl & Hne & Hdh & Hdl & Ht)%defaults_ok_shape Hnames.
  rewrite (world_with_dicts w lh ll dh dl Hdh Hdl).
  etransitivity; [eapply bind_run; by apply run_configure_subprocesses_logging|].
  etransitivity; [by apply run_configure_subprocesses_logging|].
  symmetry.
  etransitivity; [eapply bind_run; by apply run_configure_subprocesses_logging|].
  etransitivity; [by apply run_configure_subprocesses_logging|].
  f_equal. f_equal; apply write_if_commute; intros Heq; apply Hnames.
  - by apply (inj (String.app "mwaa_")) in Heq.
  - by apply (inj (String.app "mwaa.")) in Heq.
Qed.

(** X15.  Registering a subprocess name again under an ARN overrides the
    earlier registration of that name: the two calls leave what the second
    alone would. *)
Theorem subprocesses_logging_last_wins w name arn1 level1 enabled1 arn2 level2 enabled2 :
  defaults_ok (LOGGING_CONFIG w) (heap w) = true →
  (subprocesses_logging name arn1 level1 enabled1 ;;
   subprocesses_logging name (Some arn2) level2 enabled2) w =
  subprocesses_logging name (Some arn2) level2 enabled2 w.
Proof.
  intros (lh & ll & dh & dl & t & Hh & Hl & Hne & Hdh & Hdl & Ht)%defaults_ok_shape.
  rewrite (world_with_dicts w lh ll dh dl Hdh Hdl).
  etransitivity; [eapply bind_run; by apply run_configure_subprocesses_logging|].
  etransitivity; [by apply run_configure_subprocesses_logging|].
  symmetry. etransitivity; [by apply run_configure_subprocesses_logging|].
  by rewrite !write_if_override.
Qed.
End further.

Lemma module_body_returns_witness :
  (module_body sample_settings sample_cloudwatch_handlers sample_expanduser
     (sample_world sample_env)).1 = inr tt ∧
  defaults_ok (DEFAULT_LOGGING_CONFIG sample_settings)
    (heap (loaded sample_settings sample_cloudwatch_handlers sample_expanduser
             (sample_world sample_env))) = true.
Proof.
  apply (module_body_returns sample_settings sample_cloudwatch_handlers sample_expanduser
           (sample_world sample_env)).
  reflexivity.
Defined.

Lemma module_body_without_log_groups_witness :
  module_body sample_settings sample_cloudwatch_handlers sample_expanduser
    (handlers_list_world sample_env_no_log_groups) =
  (inr tt, set_LOGGING_CONFIG (DEFAULT_LOGGING_CONFIG sample_settings)
             (handlers_list_world sample_env_no_log_groups)).
Proof.
  apply (module_body_without_log_groups sample_settings sample_cloudwatch_handlers
           sample_expanduser (handlers_list_world sample_env_no_log_groups)).
  intros SOURCE Hin. unfold sources in Hin.
  repeat (apply elem_of_cons in Hin as [->|Hin]; [reflexivity|]).
  by apply elem_of_nil in Hin.
Defined.

Lemma task_logging_returns_iff_witness :
  (_configure_task_logging sample_settings sample_cloudwatch_handlers sample_expanduser
     (sample_bound_world sample_env)).1 = inr tt ↔
  is_Some (dict_at (LOGGING_CONFIG (sample_bound_world sample_env))
             (heap (sample_bound_world sample_env)) "handlers") ∧
  ∃ dl t,
    dict_at (LOGGING_CONFIG (sample_bound_world sample_env))
      (heap (sample_bound_world sample_env)) "loggers" = Some dl ∧
    dl !! "airflow.task" = Some (VDict t).
Proof.
  apply (task_logging_returns_iff sample_settings sample_cloudwatch_handlers
           sample_expanduser (sample_bound_world sample_env)
           "arn:aws:logs:us-west-2:123456789012:log-group:airflow-Task").
  reflexivity.
Defined.

Lemma module_body_raises_after_task_handler_witness :
  (module_body sample_settings sample_cloudwatch_handlers sample_expanduser
     (no_task_logger_world sample_env)).1 = inl (KeyError "airflow.task") ∧
  handlers (loaded sample_settings sample_cloudwatch_handlers sample_expanduser
              (no_task_logger_world sample_env)) =
    <["task" := task_handler sample_cloudwatch_handlers "/usr/local/airflow/logs"
                  "arn:aws:logs:us-west-2:123456789012:log-group:airflow-Task" true]>
      sample_default_handlers ∧
  loggers (loaded sample_settings sample_cloudwatch_handlers sample_expanduser
             (no_task_logger_world sample_env)) = ∅.
Proof.
  destruct (module_body_raises_after_task_handler sample_settings sample_cloudwatch_handlers
              sample_expanduser (no_task_logger_world sample_env) 2%positive 3%positive
              sample_default_handlers ∅
              "arn:aws:logs:us-west-2:123456789012:log-group:airflow-Task")
    as (Hraise & Hhandlers & Hloggers).
  - reflexivity.
  - reflexivity.
  - discriminate.
  - reflexivity.
  - reflexivity.
  - intros t. vm_compute. discriminate.
  - reflexivity.
  - split_and!; [exact Hraise|exact Hhandlers|exact Hloggers].
Defined.

Lemma setup_raises_without_handlers_witness :
  _configure_task_logging sample_settings sample_cloudwatch_handlers sample_expanduser
    (sample_world sample_env) =
  (inl (KeyError "handlers"), sample_world sample_env).
Proof.
  destruct (setup_raises_without_handlers sample_settings sample_cloudwatch_handlers
              sample_expanduser (sample_world sample_env)) as (_ & _ & Htask).
  - reflexivity.
  - apply (Htask "arn:aws:logs:us-west-2:123456789012:log-group:airflow-Task").
    reflexivity.
Defined.

Lemma unregistered_names_untouched_witness :
  handlers (loaded sample_settings sample_cloudwatch_handlers sample_expanduser
              (sample_world sample_env)) !! "console" =
  default_handlers sample_settings (sample_world sample_env) !! "console" ∧
  loggers (loaded sample_settings sample_cloudwatch_handlers sample_expanduser
             (sample_world sample_env)) !! "flask_appbuilder" =
  default_loggers sample_settings (sample_world sample_env) !! "flask_appbuilder" ∧
  heap (loaded sample_settings sample_cloudwatch_handlers sample_expanduser
          (sample_world sample_env)) !! 1%positive =
  heap (sample_world sample_env) !! 1%positive.
Proof.
  destruct (unregistered_names_untouched sample_settings sample_cloudwatch_handlers
              sample_expanduser (sample_world sample_env)) as (Hhs & Hls & Hheap).
  - reflexivity.
  - split_and!.
    + apply Hhs. compute_done.
    + apply Hls. compute_done.
    + apply Hheap; vm_compute; discriminate.
Defined.

Lemma defaults_see_the_registrations_witness :
  default_handlers sample_settings
    (loaded sample_settings sample_cloudwatch_handlers sample_expanduser
       (sample_world sample_env)) =
  handlers (loaded sample_settings sample_cloudwatch_handlers sample_expanduser
              (sample_world sample_env)) ∧
  ∃ entry,
    default_handlers sample_settings
      (loaded sample_settings sample_cloudwatch_handlers sample_expanduser
         (sample_world sample_env)) !! "mwaa_worker" = Some entry ∧
    has_handler_parameters "arn:aws:logs:us-west-2:123456789012:log-group:airflow-Worker"
      true entry.
Proof.
  destruct (defaults_see_the_registrations sample_settings sample_cloudwatch_handlers
              sample_expanduser (sample_world sample_env) "WORKER" "mwaa_worker" "mwaa.worker"
              "arn:aws:logs:us-west-2:123456789012:log-group:airflow-Worker")
    as (Hhandlers & _ & Hentry).
  - reflexivity.
  - unfold registrations. do 3 apply list_elem_of_further. apply list_elem_of_here.
  - reflexivity.
  - split; [exact Hhandlers|exact Hentry].
Defined.

Lemma no_name_is_removed_witness :
  dom (default_handlers sample_settings (sample_world sample_env)) ⊆
  dom (handlers (loaded sample_settings sample_cloudwatch_handlers sample_expanduser
                   (sample_world sample_env))) ∧
  dom (default_loggers sample_settings (sample_world sample_env)) ⊆
  dom (loggers (loaded sample_settings sample_cloudwatch_handlers sample_expanduser
                  (sample_world sample_env))).
Proof.
  apply (no_name_is_removed sample_settings sample_cloudwatch_handlers sample_expanduser
           (sample_world sample_env)).
  reflexivity.
Defined.

Lemma secrets_are_masked_outside_dag_processing_witness :
  ∃ params,
    processor_handler sample_settings sample_cloudwatch_handlers
      "arn:aws:logs:us-west-2:123456789012:log-group:airflow-DAGProcessing" false =
      VDict params ∧
    params !! "filters" =
      if decide ("processor" = "processor_manager" ∨ "processor" = "processor") then None
      else Some (VList [VStr "mask_secrets"]).
Proof.
  apply (secrets_are_masked_outside_dag_processing sample_settings sample_cloudwatch_handlers
           sample_expanduser (sample_world sample_env) "processor").
  - reflexivity.
  - reflexivity.
  - vm_compute. discriminate.
Defined.

Lemma processor_manager_stream_name_witness :
  ∃ params,
    handlers (loaded sample_settings sample_cloudwatch_handlers sample_expanduser
                (sample_world sample_env)) !! "processor_manager" = Some (VDict params) ∧
    params !! "stream_name" = Some (VStr "dag_processor_manager.log").
Proof.
  apply (processor_manager_stream_name sample_settings sample_cloudwatch_handlers
           sample_expanduser (sample_world sample_env)
           "/usr/local/airflow/logs/dag_processor_manager" "dag_processor_manager.log"
           "arn:aws:logs:us-west-2:123456789012:log-group:airflow-DAGProcessing").
  - reflexivity.
  - reflexivity.
  - reflexivity.
  - reflexivity.
Defined.

Lemma processor_manager_stream_name_has_no_slash_witness :
  ∃ params stream_name,
    handlers (loaded sample_settings sample_cloudwatch_handlers sample_expanduser
                (sample_world sample_env)) !! "processor_manager" = Some (VDict params) ∧
    params !! "stream_name" = Some (VStr stream_name) ∧
    occurs "/" stream_name = false.
Proof.
  apply (processor_manager_stream_name_has_no_slash sample_settings
           sample_cloudwatch_handlers sample_expanduser (sample_world sample_env)
           "arn:aws:logs:us-west-2:123456789012:log-group:airflow-DAGProcessing").
  - reflexivity.
  - reflexivity.
Defined.

Lemma qualified_name_inj_witness :
  PyClass "mwaa.logging.cloudwatch_handlers" "TaskLogHandler" =
  TaskLogHandler sample_cloudwatch_handlers.
Proof.
  apply qualified_name_inj.
  - reflexivity.
  - reflexivity.
  - reflexivity.
Defined.

Lemma subprocesses_logging_commute_witness :
  (_configure_subprocesses_logging sample_cloudwatch_handlers "worker"
     (Some "arn:aws:logs:us-west-2:123456789012:log-group:airflow-Worker") "INFO" true ;;
   _configure_subprocesses_logging sample_cloudwatch_handlers "scheduler"
     (Some "arn:aws:logs:us-west-2:123456789012:log-group:airflow-Scheduler") "DEBUG" false)
    (sample_bound_world sample_env) =
  (_configure_subprocesses_logging sample_cloudwatch_handlers "scheduler"
     (Some "arn:aws:logs:us-west-2:123456789012:log-group:airflow-Scheduler") "DEBUG" false ;;
   _configure_subprocesses_logging sample_cloudwatch_handlers "worker"
     (Some "arn:aws:logs:us-west-2:123456789012:log-group:airflow-Worker") "INFO" true)
    (sample_bound_world sample_env).
Proof.
  apply (subprocesses_logging_commute sample_cloudwatch_handlers).
  - reflexivity.
  - discriminate.
Defined.

Lemma subprocesses_logging_last_wins_witness :
  (_configure_subprocesses_logging sample_cloudwatch_handlers "worker"
     (Some "arn:aws:logs:us-west-2:123456789012:log-group:airflow-Worker") "INFO" true ;;
   _configure_subprocesses_logging sample_cloudwatch_handlers "worker"
     (Some "arn:aws:logs:eu-west-1:210987654321:log-group:other-Worker") "DEBUG" false)
    (sample_bound_world sample_env) =
  _configure_subprocesses_logging sample_cloudwatch_handlers "worker"
    (Some "arn:aws:logs:eu-west-1:210987654321:log-group:other-Worker") "DEBUG" false
    (sample_bound_world sample_env).
Proof.
  apply (subprocesses_logging_last_wins sample_cloudwatch_handlers).
  reflexivity.
Defined.
